(** * DealScope search aggregation endpoint

    A shallow embedding of [src/app/api/search/route.ts]: the two provider
    adapters ([fetchAmazon], [fetchBestBuy]), the timeout helper
    ([withTimeout]), the two cache tiers and the request handler [GET].

    Conventions of the embedding.
    - JavaScript strings are Rocq strings, each character read as the code
      point of the same number (U+0000..U+00FF).
    - JavaScript numbers that are integers (page numbers, clock readings,
      delays) are [Z] or [N]; numbers copied out of provider JSON are
      rationals [Q] (every finite double is one). A JavaScript number is a
      double: an integer is one exactly up to magnitude 2^53, and the
      built-ins that print numbers leave plain decimal notation at 10^21.
      [Js.parseInt], [Js.show] and [toFixed2] follow the code inside these
      ranges only ([exact_integer], [fixed_notation]); statements about the
      value of a page or the text of a price carry the range as a
      hypothesis.
    - A promise is the instant at which it settles, counted in milliseconds
      from its creation, with the settlement; a promise that never settles
      is [Pending].
    - The module-level [cache] map is threaded through [GET]; what the
      outside world answers (clock, Redis, the two retailers) is an
      environment record; every effect the handler performs is recorded in
      a trace of events.
    - [console.error] diagnostics are not observable by a caller and are
      left out. *)

From Stdlib Require Import ZArith NArith QArith Qround Qabs String Ascii List Bool Lia.
From stdpp Require Import gmap strings pretty.
Import ListNotations.

Close Scope Q_scope.
Local Open Scope string_scope.
Local Open Scope list_scope.

(** ** JavaScript built-ins used by the handler *)

Module Js.

(** [String.prototype.toLowerCase] on one code point of U+0000..U+00FF:
    A-Z, and the Latin-1 capitals U+00C0..U+00DE except U+00D7. *)
Definition lower_char (c : ascii) : ascii :=
  let n := N_of_ascii c in
  if ((65 <=? n) && (n <=? 90))%N then ascii_of_N (n + 32)
  else if ((192 <=? n) && (n <=? 222) && negb (n =? 215))%N
       then ascii_of_N (n + 32)
  else c.

Fixpoint toLowerCase (s : string) : string :=
  match s with
  | EmptyString => EmptyString
  | String c r => String (lower_char c) (toLowerCase r)
  end.

(** Truthiness of a string: only the empty string is falsy. *)
Definition truthy (s : string) : bool :=
  match s with EmptyString => false | String _ _ => true end.

(** Truthiness of [string | null | undefined]. *)
Definition truthy_opt (o : option string) : bool :=
  match o with Some s => truthy s | None => false end.

(** [x || d] for [x : string | null]. *)
Definition or_else (o : option string) (d : string) : string :=
  match o with
  | Some s => if truthy s then s else d
  | None => d
  end.

(** White space and line terminators skipped by [parseInt]
    (TAB, LF, VT, FF, CR, SP, NBSP). *)
Definition is_space (c : ascii) : bool :=
  let n := N_of_ascii c in
  ((n =? 9) || (n =? 10) || (n =? 11) || (n =? 12) || (n =? 13)
   || (n =? 32) || (n =? 160))%N.

Fixpoint trim_start (s : string) : string :=
  match s with
  | String c r => if is_space c then trim_start r else s
  | EmptyString => EmptyString
  end.

Definition digit_of (c : ascii) : option Z :=
  let n := N_of_ascii c in
  if ((48 <=? n) && (n <=? 57))%N then Some (Z.of_N n - 48)%Z else None.

(** Longest prefix of decimal digits, read as a number; [None] when the
    prefix is empty. [acc] is the value of the digits read so far and
    [seen] tells whether there was one. *)
Fixpoint digits (s : string) (acc : Z) (seen : bool) : option Z :=
  match s with
  | String c r =>
      match digit_of c with
      | Some d => digits r (10 * acc + d)%Z true
      | None => if seen then Some acc else None
      end
  | EmptyString => if seen then Some acc else None
  end.

(** [parseInt(s, 10)]: [None] is NaN. Leading white space is skipped, one
    sign is accepted, then the longest run of decimal digits is read and
    the rest of the string ignored. [-0] is [0]. The result is the signed
    mathematical integer of the digits; [parseInt] returns the double
    nearest to it, which is that integer up to magnitude 2^53
    ([exact_integer]). Beyond, the code has a rounded number, and Infinity
    from about 309 digits on: this function does not follow it there. It
    does tell NaN and 0 from the rest for every string. *)
Definition parseInt (s : string) : option Z :=
  match trim_start s with
  | String "-" r => option_map Z.opp (digits r 0 false)
  | String "+" r => digits r 0 false
  | t => digits t 0 false
  end.

(** [n || 1] for [n] the result of [parseInt]: NaN and 0 are falsy. *)
Definition num_or_1 (n : option Z) : Z :=
  match n with
  | Some z => if (z =? 0)%Z then 1%Z else z
  | None => 1%Z
  end.

(** Template-literal rendering [`${n}`] of an integer: its decimal digits,
    with a minus sign when negative. That is what the code prints for an
    integer of magnitude below 10^21, so for every [exact_integer]; from
    10^21 on the code prints exponent notation, which this function does
    not follow. *)
Definition show (z : Z) : string := pretty z.

End Js.

(** ** Data model *)

Inductive Source := amazon | bestbuy.

Record UnifiedResult := {
  source : Source;
  title : string;
  price : option string;
  link : string;
  thumbnail : option string;
  rating : option Q;
  reviews : option Q
}.

(** [ProviderResult]; the cached and the merged payload have the same
    shape [{ results, hasMore }]. *)
Record ProviderResult := {
  results : list UnifiedResult;
  hasMore : bool
}.

(** The outcome an adapter or the orchestrator puts in place of a failed
    provider: [{ results: [], hasMore: false }]. *)
Definition empty_outcome : ProviderResult :=
  {| results := []; hasMore := false |}.

(** *** L1 cache (in-memory) *)

Definition CACHE_TTL_MS : N := 60000.

Record CacheEntry := {
  expires : N;
  data : ProviderResult
}.

Definition makeCacheKey (q : string) (page : Z) (provider : string) : string :=
  Js.toLowerCase q +:+ "::" +:+ Js.show page +:+ "::" +:+ provider.

(** *** L2 cache (Redis) *)

Definition REDIS_TTL_SECONDS : N := 60 * 10.

Definition makeRedisKey (q : string) (page : Z) (provider : string) : string :=
  "dealscope:search:v1:" +:+ Js.toLowerCase q +:+ "::" +:+ Js.show page
  +:+ "::" +:+ provider.

(** ** Promises *)

Inductive Settled (T : Type) :=
| Fulfilled (v : T)
| Rejected (reason : string).
Arguments Fulfilled {T} v.
Arguments Rejected {T} reason.

(** [SettledAt ms s]: the promise settles as [s], [ms] milliseconds after it
    was created. [Pending]: it never settles. *)
Inductive Promise (T : Type) :=
| Pending
| SettledAt (ms : N) (s : Settled T).
Arguments Pending {T}.
Arguments SettledAt {T} ms s.

(** [withTimeout(promise, ms)]: a timer set to [ms] rejects with
    "Request timed out"; a promise that settles before the timer fires
    clears it and is passed through. *)
Definition withTimeout {T} (promise : Promise T) (ms : N) : Promise T :=
  match promise with
  | SettledAt t s =>
      if (t <? ms)%N then SettledAt t s
      else SettledAt ms (Rejected "Request timed out")
  | Pending => SettledAt ms (Rejected "Request timed out")
  end.

(** [promise.catch(handler)] for a handler that returns a value. *)
Definition catch {T} (promise : Promise T) (handler : string -> T) : Promise T :=
  match promise with
  | SettledAt t (Rejected err) => SettledAt t (Fulfilled (handler err))
  | p => p
  end.

(** [Promise.all]: fulfilled with all the values, in the order of the list,
    once every promise is fulfilled; rejected as soon as one promise
    rejects; pending otherwise. *)
Fixpoint earliest_rejection {T} (ps : list (Promise T)) : option (N * string) :=
  match ps with
  | [] => None
  | p :: r =>
      match p, earliest_rejection r with
      | SettledAt t (Rejected e), Some (t', e') =>
          if (t <=? t')%N then Some (t, e) else Some (t', e')
      | SettledAt t (Rejected e), None => Some (t, e)
      | _, o => o
      end
  end.

Fixpoint all_fulfilled {T} (ps : list (Promise T)) : option (N * list T) :=
  match ps with
  | [] => Some (0%N, [])
  | SettledAt t (Fulfilled v) :: r =>
      match all_fulfilled r with
      | Some (t', vs) => Some (N.max t t', v :: vs)
      | None => None
      end
  | _ :: _ => None
  end.

Definition Promise_all {T} (ps : list (Promise T)) : Promise (list T) :=
  match earliest_rejection ps with
  | Some (t, e) => SettledAt t (Rejected e)
  | None =>
      match all_fulfilled ps with
      | Some (t, vs) => SettledAt t (Fulfilled vs)
      | None => Pending
      end
  end.

(** ** The retailers' HTTP APIs, as the adapters read them *)

Module Http.
(** What [fetch] resolves to: the status and the decoded body; [json] is
    [None] when [res.json()] rejects or the body does not have the shape
    the adapter walks through (the adapter's [try] catches both). *)
Record Response (B : Type) := { status : N; json : option B }.
Arguments status {B} r.
Arguments json {B} r.

(** [res.ok] *)
Definition ok {B} (res : Response B) : bool :=
  ((200 <=? status res) && (status res <=? 299))%N.
End Http.

(** A field tested with [typeof x === "number"] is [Some] of the number or
    [None]; a field read through [?? null] is [Some] of the value or
    [None]. *)
Module Rainforest.
Record Item := {
  title : string;
  price_raw : option string;        (* item.price?.raw *)
  link : string;
  image : option string;
  rating : option Q;
  reviews : option Q
}.
Record Pagination := {
  current_page : option Q;
  total_pages : option Q
}.
Record Json := {
  search_results : option (list Item);
  pagination : option Pagination
}.
End Rainforest.

Module BestBuyApi.
Record Product := {
  name : string;
  salePrice : option Q;
  regularPrice : option Q;
  url : string;
  image : option string;
  customerReviewAverage : option Q;
  customerReviewCount : option Q
}.
Record Json := {
  products : option (list Product);
  totalPages : option Q;
  currentPage : option Q
}.
End BestBuyApi.

(** [a < b] on numbers. *)
Definition num_lt (a b : Q) : bool := negb (Qle_bool b a).

(** [x.toFixed(2)]: the sign, then the integer [n] nearest to [100 * |x|]
    (the larger one on a tie) printed with a point before its last two
    digits. That is what the code prints for a finite [x] of magnitude
    below 10^21 ([fixed_notation]); from 10^21 on the code prints exponent
    notation, which this function does not follow. *)
Definition toFixed2 (x : Q) : string :=
  let n := Qfloor (Qplus (Qmult (Qabs x) (inject_Z 100)) (Qmake 1 2)) in
  let frac := (n mod 100)%Z in
  (if (Qnum x <? 0)%Z then "-" else "")
  +:+ pretty (n / 100)%Z +:+ "."
  +:+ (if (frac <? 10)%Z then "0" else "") +:+ pretty frac.

(** ** Environment, state and effects of one request *)

(** [process.env], read once when the module is loaded. *)
Record Config := {
  RAINFOREST_API_KEY : option string;
  BESTBUY_API_KEY : option string
}.

(** The query string of the request: [searchParams.get] gives [null]
    ([None]) for a parameter that is not there. *)
Record Request := {
  param_q : option string;
  param_page : option string;
  param_provider : option string
}.

(** What [await redis.get(key)] does: it throws, or gives the stored value
    ([null] when there is none). *)
Inductive RedisReply :=
| RedisThrows
| RedisValue (v : option ProviderResult).

(** What the outside world does during one request. [now] is [Date.now()]
    when the handler starts; [redis_get_ms] is how long [redis.get] takes;
    the two [fetch] promises are the retailers' answers. [redis.set] may
    throw as well: the handler catches that and goes on, so the environment
    does not have to say which. *)
Record Env := {
  now : N;
  redis_get : RedisReply;
  redis_get_ms : N;
  amazon_fetch : Promise (Http.Response Rainforest.Json);
  bestbuy_fetch : Promise (Http.Response BestBuyApi.Json)
}.

Inductive Event :=
| CacheGet (key : string)                              (* cache.get(key) *)
| CacheSet (key : string) (entry : CacheEntry)         (* cache.set(key, entry) *)
| RedisGet (key : string)                              (* redis.get(key) *)
| RedisSet (key : string) (value : ProviderResult) (ex : N)
                                                       (* redis.set(key, value, { ex }) *)
| ProviderCall (p : Source) (q : string) (page : Z)    (* fetchAmazon / fetchBestBuy (q, page) *)
| HttpFetch (p : Source) (q : string) (page : Z).      (* fetch(url) to the retailer *)

(** ** Provider adapters *)

Definition amazon_item (item : Rainforest.Item) : UnifiedResult :=
  {| source := amazon;
     title := Rainforest.title item;
     price := Rainforest.price_raw item;
     link := Rainforest.link item;
     thumbnail := Rainforest.image item;
     rating := Rainforest.rating item;
     reviews := Rainforest.reviews item |}.

(** The body of [fetchAmazon]'s [try] once the response is there. *)
Definition amazon_outcome (res : Http.Response Rainforest.Json) : ProviderResult :=
  if negb (Http.ok res) then empty_outcome
  else
    match Http.json res with
    | None => empty_outcome                               (* catch (err) *)
    | Some json =>
        let results :=
          map amazon_item (default [] (Rainforest.search_results json)) in
        let hasMore :=
          match Rainforest.pagination json with
          | Some {| Rainforest.current_page := Some c;
                    Rainforest.total_pages := Some t |} => num_lt c t
          | _ => (0 <? length results)%nat
          end in
        {| results := results; hasMore := hasMore |}
    end.

Definition fetchAmazon (cfg : Config)
    (net : Promise (Http.Response Rainforest.Json)) (q : string) (page : Z)
  : list Event * Promise ProviderResult :=
  if negb (Js.truthy_opt (RAINFOREST_API_KEY cfg))
  then ([], SettledAt 0 (Fulfilled empty_outcome))
  else
    ([HttpFetch amazon q page],
     match net with
     | SettledAt t (Fulfilled res) => SettledAt t (Fulfilled (amazon_outcome res))
     | SettledAt t (Rejected _) => SettledAt t (Fulfilled empty_outcome)
     | Pending => Pending
     end).

Definition bestbuy_product (p : BestBuyApi.Product) : UnifiedResult :=
  let price :=
    match BestBuyApi.salePrice p, BestBuyApi.regularPrice p with
    | Some s, _ => Some ("$" +:+ toFixed2 s)
    | None, Some r => Some ("$" +:+ toFixed2 r)
    | None, None => None
    end in
  {| source := bestbuy;
     title := BestBuyApi.name p;
     price := price;
     link := BestBuyApi.url p;
     thumbnail := BestBuyApi.image p;
     rating := BestBuyApi.customerReviewAverage p;
     reviews := BestBuyApi.customerReviewCount p |}.

Definition bestbuy_outcome (res : Http.Response BestBuyApi.Json) (page : Z)
  : ProviderResult :=
  if negb (Http.ok res) then empty_outcome
  else
    match Http.json res with
    | None => empty_outcome                               (* catch (err) *)
    | Some json =>
        let products := default [] (BestBuyApi.products json) in
        let results := map bestbuy_product products in
        let totalPages := BestBuyApi.totalPages json in
        let currentPage := default (inject_Z page) (BestBuyApi.currentPage json) in
        let hasMore :=
          match totalPages with
          | Some t => num_lt currentPage t
          | None => (0 <? length results)%nat
          end in
        {| results := results; hasMore := hasMore |}
    end.

Definition fetchBestBuy (cfg : Config)
    (net : Promise (Http.Response BestBuyApi.Json)) (q : string) (page : Z)
  : list Event * Promise ProviderResult :=
  if negb (Js.truthy_opt (BESTBUY_API_KEY cfg))
  then ([], SettledAt 0 (Fulfilled empty_outcome))
  else
    ([HttpFetch bestbuy q page],
     match net with
     | SettledAt t (Fulfilled res) => SettledAt t (Fulfilled (bestbuy_outcome res page))
     | SettledAt t (Rejected _) => SettledAt t (Fulfilled empty_outcome)
     | Pending => Pending
     end).

(** ** The handler *)

Inductive Body :=
| ErrorBody (error : string)
| SearchBody (payload : ProviderResult) (cached : bool) (cacheLayer : string).

(** [NextResponse.json(body, { status })]; the status is 200 when none is
    given. *)
Record NextResponse := { status : N; body : Body }.

(** What one run of [GET] leaves behind: the response ([None] when the
    handler never returns), the L1 map and the effects in the order they
    happened. *)
Record Outcome := {
  response : option NextResponse;
  cache_after : gmap string CacheEntry;
  trace : list Event
}.

(** [(searchParams.get("provider") || "amazon").toLowerCase()] *)
Definition providerParam_of (req : Request) : string :=
  Js.toLowerCase (Js.or_else (param_provider req) "amazon").

(** [pageParam ? parseInt(pageParam, 10) || 1 : 1] *)
Definition page_of (req : Request) : Z :=
  match param_page req with
  | Some pageParam =>
      if Js.truthy pageParam then Js.num_or_1 (Js.parseInt pageParam) else 1%Z
  | None => 1%Z
  end.

(** The guarded provider call of the live fetch:
    [withTimeout(fetchX(q, page), 4000).catch(() => empty)]. *)
Definition guarded (call : Promise ProviderResult) : Promise ProviderResult :=
  catch (withTimeout call 4000) (fun _ => empty_outcome).

(** [cached && cached.expires > Date.now()]: the payload of a live L1
    entry. *)
Definition l1_lookup (cache : gmap string CacheEntry) (cacheKey : string)
    (date_now : N) : option ProviderResult :=
  match cache !! cacheKey with
  | Some cached =>
      if (date_now <? expires cached)%N then Some (data cached) else None
  | None => None
  end.

(** The [try { redis.get } catch] block: the value when there is a truthy
    one; a [null] and a throw both fall through. *)
Definition redis_lookup (env : Env) : option ProviderResult :=
  match redis_get env with
  | RedisValue (Some redisCached) => Some redisCached
  | RedisValue None => None
  | RedisThrows => None
  end.

(** The [providerPromises] array: one guarded call per provider in scope,
    Amazon first, with the effects of issuing the calls. *)
Definition provider_calls (cfg : Config) (env : Env) (useAmazon useBestBuy : bool)
    (q : string) (page : Z) : list Event * list (Promise ProviderResult) :=
  let callA :=
    if useAmazon then
      let '(ev, p) := fetchAmazon cfg (amazon_fetch env) q page in
      (ProviderCall amazon q page :: ev, [guarded p])
    else ([], []) in
  let callB :=
    if useBestBuy then
      let '(ev, p) := fetchBestBuy cfg (bestbuy_fetch env) q page in
      (ProviderCall bestbuy q page :: ev, [guarded p])
    else ([], []) in
  (fst callA ++ fst callB, snd callA ++ snd callB).

(** The merge: [flatMap], [slice(0, 30)] and [some]. *)
Definition merge (providerResults : list ProviderResult) : ProviderResult :=
  let allResults := flat_map results providerResults in
  let allResults := firstn 30 allResults in
  let hasMore := existsb hasMore providerResults in
  {| results := allResults; hasMore := hasMore |}.

(** Stage 3 of the handler, from the creation of [providerPromises] to the
    end. [t1] is the clock when the stage starts and [before] the effects
    of the stages before it. *)
Definition live_fetch (cfg : Config) (env : Env) (cache : gmap string CacheEntry)
    (q : string) (page : Z) (providerParam cacheKey redisKey : string)
    (t1 : N) (before : list Event) : Outcome :=
  let useAmazon := (providerParam =? "amazon") || (providerParam =? "all") in
  let useBestBuy := (providerParam =? "bestbuy") || (providerParam =? "all") in
  let '(calls, providerPromises) :=
    provider_calls cfg env useAmazon useBestBuy q page in
  match Promise_all providerPromises with
  | SettledAt t (Fulfilled providerResults) =>
      let payload := merge providerResults in
      let entry := {| expires := (t1 + t) + CACHE_TTL_MS; data := payload |} in
      let redis_write :=
        if (0 <? length (results payload))%nat
        then [RedisSet redisKey payload REDIS_TTL_SECONDS] else [] in
      {| response := Some {| status := 200; body := SearchBody payload false "LIVE" |};
         cache_after := <[cacheKey := entry]> cache;
         trace := before ++ calls ++ [CacheSet cacheKey entry] ++ redis_write |}
  | SettledAt t (Rejected _) =>
      {| response := Some {| status := 500; body := ErrorBody "Search failed" |};
         cache_after := cache; trace := before ++ calls |}
  | Pending =>
      {| response := None; cache_after := cache; trace := before ++ calls |}
  end.

Definition GET (cfg : Config) (env : Env) (cache : gmap string CacheEntry)
    (req : Request) : Outcome :=
  let providerParam := providerParam_of req in
  let page := page_of req in
  match param_q req with
  | Some (String _ _ as q) =>
    if negb (Js.truthy_opt (RAINFOREST_API_KEY cfg))
       && negb (Js.truthy_opt (BESTBUY_API_KEY cfg))
    then
      {| response := Some {| status := 500;
           body := ErrorBody "Server is not configured with any provider API keys" |};
         cache_after := cache; trace := [] |}
    else
    let cacheKey := makeCacheKey q page providerParam in
    (* 1) L1 in-memory cache *)
    match l1_lookup cache cacheKey (now env) with
    | Some cached_data =>
      {| response := Some {| status := 200;
                             body := SearchBody cached_data true "L1" |};
         cache_after := cache; trace := [CacheGet cacheKey] |}
    | None =>
    (* 2) L2 Redis cache *)
    let redisKey := makeRedisKey q page providerParam in
    let t1 := (now env + redis_get_ms env)%N in
    match redis_lookup env with
    | Some redisCached =>
      let entry := {| expires := t1 + CACHE_TTL_MS; data := redisCached |} in
      {| response := Some {| status := 200;
                             body := SearchBody redisCached true "REDIS" |};
         cache_after := <[cacheKey := entry]> cache;
         trace := [CacheGet cacheKey; RedisGet redisKey; CacheSet cacheKey entry] |}
    | None =>
    (* 3) Live fetch *)
      live_fetch cfg env cache q page providerParam cacheKey redisKey t1
        [CacheGet cacheKey; RedisGet redisKey]
    end
    end
  | Some EmptyString | None =>
    {| response := Some {| status := 400; body := ErrorBody "Missing search term" |};
       cache_after := cache; trace := [] |}
  end.

(** ** Notions the statements below use *)

(** The request gets past validation and both cache tiers with query [q]:
    [q] is a non-empty string, a credential is configured, L1 has no live
    entry under the key and Redis gives nothing. *)
Definition live_fetch_stage (cfg : Config) (env : Env)
    (cache : gmap string CacheEntry) (req : Request) (q : string) : Prop :=
  param_q req = Some q /\ Js.truthy q = true /\
  (Js.truthy_opt (RAINFOREST_API_KEY cfg) = true \/
   Js.truthy_opt (BESTBUY_API_KEY cfg) = true) /\
  l1_lookup cache (makeCacheKey q (page_of req) (providerParam_of req)) (now env) = None /\
  redis_lookup env = None.

(** A provider's [fetch] fails: it hangs, or is not there when the 4000 ms
    timer fires, or rejects (network error), or answers with a status
    outside 200..299. *)
Inductive fails {B : Type} : Promise (Http.Response B) -> Prop :=
| fails_hang : fails Pending
| fails_timeout t s : (4000 <= t)%N -> fails (SettledAt t s)
| fails_network t err : fails (SettledAt t (Rejected err))
| fails_status t res : Http.ok res = false -> fails (SettledAt t (Fulfilled res)).

(** A provider's [fetch] answers in time with a success status. *)
Definition healthy {B : Type} (net : Promise (Http.Response B))
    (res : Http.Response B) : Prop :=
  exists t, net = SettledAt t (Fulfilled res) /\ (t < 4000)%N /\ Http.ok res = true.

(** The promise is fulfilled with [v]. *)
Definition fulfils_with {T : Type} (p : Promise T) (v : T) : Prop :=
  exists t, p = SettledAt t (Fulfilled v).

(** Events that contact a provider. *)
Definition is_provider_event (e : Event) : bool :=
  match e with
  | ProviderCall _ _ _ | HttpFetch _ _ _ => true
  | _ => false
  end.

(** Events that look a cache tier up. *)
Definition is_cache_lookup (e : Event) : bool :=
  match e with
  | CacheGet _ | RedisGet _ => true
  | _ => false
  end.

(** Events that write to Redis. *)
Definition is_redis_write (e : Event) : bool :=
  match e with
  | RedisSet _ _ _ => true
  | _ => false
  end.

(** The spec's wording of a missing query: absent, empty or made of white
    space only. *)
Definition spec_blank_query (q : option string) : bool :=
  match q with
  | None => true
  | Some s => Js.trim_start s =? ""
  end.

(** The spec's wording of the default scope: the tag of the first provider
    that has a credential. *)
Definition spec_first_configured_tag (cfg : Config) : option string :=
  if Js.truthy_opt (RAINFOREST_API_KEY cfg) then Some "amazon"
  else if Js.truthy_opt (BESTBUY_API_KEY cfg) then Some "bestbuy"
  else None.

(** ** Sample configurations, requests and environments *)

Module Sample.

Definition cfg_both : Config :=
  {| RAINFOREST_API_KEY := Some "rf-key"; BESTBUY_API_KEY := Some "bb-key" |}.

Definition cfg_bestbuy_only : Config :=
  {| RAINFOREST_API_KEY := None; BESTBUY_API_KEY := Some "bb-key" |}.

Definition item (n : string) : Rainforest.Item :=
  {| Rainforest.title := n; Rainforest.price_raw := Some "$249.00";
     Rainforest.link := "https://www.amazon.com/dp/" +:+ n;
     Rainforest.image := None;
     Rainforest.rating := Some (Qmake 9 2); Rainforest.reviews := None |}.

Definition product (n : string) : BestBuyApi.Product :=
  {| BestBuyApi.name := n; BestBuyApi.salePrice := Some (Qmake 19999 100);
     BestBuyApi.regularPrice := Some (Qmake 24999 100);
     BestBuyApi.url := "https://www.bestbuy.com/site/" +:+ n;
     BestBuyApi.image := None;
     BestBuyApi.customerReviewAverage := None;
     BestBuyApi.customerReviewCount := Some (inject_Z 12) |}.

(** Two Amazon hits on the last page. *)
Definition amazon_ok : Http.Response Rainforest.Json :=
  {| Http.status := 200;
     Http.json := Some
       {| Rainforest.search_results := Some [item "a1"; item "a2"];
          Rainforest.pagination := Some
            {| Rainforest.current_page := Some (inject_Z 1);
               Rainforest.total_pages := Some (inject_Z 1) |} |} |}.

(** Thirty Amazon hits on the last page. *)
Definition amazon_full : Http.Response Rainforest.Json :=
  {| Http.status := 200;
     Http.json := Some
       {| Rainforest.search_results := Some (repeat (item "a") 30);
          Rainforest.pagination := Some
            {| Rainforest.current_page := Some (inject_Z 1);
               Rainforest.total_pages := Some (inject_Z 1) |} |} |}.

(** One Best Buy hit on page 1 of 3. *)
Definition bestbuy_ok : Http.Response BestBuyApi.Json :=
  {| Http.status := 200;
     Http.json := Some
       {| BestBuyApi.products := Some [product "b1"];
          BestBuyApi.totalPages := Some (inject_Z 3);
          BestBuyApi.currentPage := Some (inject_Z 1) |} |}.

(** Cold Redis, both retailers answer in time. *)
Definition env_healthy : Env :=
  {| now := 1000; redis_get := RedisValue None; redis_get_ms := 5;
     amazon_fetch := SettledAt 300 (Fulfilled amazon_ok);
     bestbuy_fetch := SettledAt 200 (Fulfilled bestbuy_ok) |}.

(** Cold Redis, Amazon never answers, Best Buy does. *)
Definition env_amazon_hangs : Env :=
  {| now := 1000; redis_get := RedisValue None; redis_get_ms := 5;
     amazon_fetch := Pending;
     bestbuy_fetch := SettledAt 200 (Fulfilled bestbuy_ok) |}.

(** Cold Redis, Amazon fills the cap alone, Best Buy has more pages. *)
Definition env_amazon_full : Env :=
  {| now := 1000; redis_get := RedisValue None; redis_get_ms := 5;
     amazon_fetch := SettledAt 300 (Fulfilled amazon_full);
     bestbuy_fetch := SettledAt 200 (Fulfilled bestbuy_ok) |}.

(** A payload stored in Redis by an earlier request. *)
Definition stored : ProviderResult := amazon_outcome amazon_ok.

Definition env_redis_hit : Env :=
  {| now := 1000; redis_get := RedisValue (Some stored); redis_get_ms := 5;
     amazon_fetch := SettledAt 300 (Fulfilled amazon_ok);
     bestbuy_fetch := SettledAt 200 (Fulfilled bestbuy_ok) |}.

(** [?q=AirPods Pro&provider=all] *)
Definition req_all : Request :=
  {| param_q := Some "AirPods Pro"; param_page := None;
     param_provider := Some "all" |}.

(** [?q=AirPods Pro] *)
Definition req_plain : Request :=
  {| param_q := Some "AirPods Pro"; param_page := None;
     param_provider := None |}.

(** [?q=%20%20%20]: a query of three spaces. *)
Definition req_spaces : Request :=
  {| param_q := Some "   "; param_page := None; param_provider := None |}.

(** [?q=] *)
Definition req_empty_q : Request :=
  {| param_q := Some ""; param_page := None; param_provider := None |}.

(** [?q=tv&page=-3] *)
Definition req_negative_page : Request :=
  {| param_q := Some "tv"; param_page := Some "-3"; param_provider := None |}.

(** [?q=tv&page=2] *)
Definition req_page2 : Request :=
  {| param_q := Some "tv"; param_page := Some "2"; param_provider := None |}.

(** [?q=tv&provider=Walmart] *)
Definition req_walmart : Request :=
  {| param_q := Some "tv"; param_page := None;
     param_provider := Some "Walmart" |}.

(** [?q=tv&provider=]: the parameter is there and empty. *)
Definition req_empty_provider : Request :=
  {| param_q := Some "tv"; param_page := None; param_provider := Some "" |}.

End Sample.

(** ** Further notions *)

(** The tag a provider has in the [provider] parameter and in [source]. *)
Definition source_tag (p : Source) : string :=
  match p with amazon => "amazon" | bestbuy => "bestbuy" end.

(** The credential of a provider. *)
Definition api_key (cfg : Config) (p : Source) : option string :=
  match p with
  | amazon => RAINFOREST_API_KEY cfg
  | bestbuy => BESTBUY_API_KEY cfg
  end.

(** The L1 key of a request whose query is [q]. *)
Definition cacheKey_of (req : Request) (q : string) : string :=
  makeCacheKey q (page_of req) (providerParam_of req).

(** The Redis key of a request whose query is [q]. *)
Definition redisKey_of (req : Request) (q : string) : string :=
  makeRedisKey q (page_of req) (providerParam_of req).

Definition is_digit (c : ascii) : bool :=
  let n := N_of_ascii c in ((48 <=? n) && (n <=? 57))%N.

(** Every character is a decimal digit. *)
Fixpoint all_digits (s : string) : bool :=
  match s with
  | EmptyString => true
  | String c r => is_digit c && all_digits r
  end.

(** No character is a colon. *)
Fixpoint colon_free (s : string) : bool :=
  match s with
  | EmptyString => true
  | String c r => negb (Ascii.eqb c ":") && colon_free r
  end.

(** The integers a double holds exactly: magnitude at most 2^53. On them
    [parseInt] returns the integer its digits denote and a template
    literal prints plain decimal digits. *)
Definition exact_integer (z : Z) : bool := (Z.abs z <=? 9007199254740992)%Z.

(** The [page] parameter of the request, when it has a digit run, denotes
    an integer that a double holds exactly. *)
Definition page_param_exact (req : Request) : Prop :=
  forall p n,
    param_page req = Some p -> Js.parseInt p = Some n -> exact_integer n = true.


(** The same environment with another answer of [redis.get]. *)
Definition with_redis_get (env : Env) (reply : RedisReply) : Env :=
  {| now := now env; redis_get := reply; redis_get_ms := redis_get_ms env;
     amazon_fetch := amazon_fetch env; bestbuy_fetch := bestbuy_fetch env |}.

(** The same request with another [provider] parameter. *)
Definition with_provider (req : Request) (p : option string) : Request :=
  {| param_q := param_q req; param_page := param_page req; param_provider := p |}.

(** The five ways a run of [GET] ends, with what each leaves behind:
    the query is missing; no credential is configured; L1 has a live
    entry; Redis has a value; the live fetch. [GET_Run] below shows that
    every run is one of them. *)
Inductive Run (cfg : Config) (env : Env) (cache : gmap string CacheEntry)
    (req : Request) : Outcome -> Prop :=
| Run_missing :
    param_q req = None \/ param_q req = Some "" ->
    Run cfg env cache req
      {| response := Some {| status := 400; body := ErrorBody "Missing search term" |};
         cache_after := cache; trace := [] |}
| Run_unconfigured q :
    param_q req = Some q -> Js.truthy q = true ->
    Js.truthy_opt (RAINFOREST_API_KEY cfg) = false ->
    Js.truthy_opt (BESTBUY_API_KEY cfg) = false ->
    Run cfg env cache req
      {| response := Some {| status := 500;
           body := ErrorBody "Server is not configured with any provider API keys" |};
         cache_after := cache; trace := [] |}
| Run_l1 q cached_data :
    param_q req = Some q -> Js.truthy q = true ->
    (Js.truthy_opt (RAINFOREST_API_KEY cfg) = true \/
     Js.truthy_opt (BESTBUY_API_KEY cfg) = true) ->
    l1_lookup cache (cacheKey_of req q) (now env) = Some cached_data ->
    Run cfg env cache req
      {| response := Some {| status := 200;
                             body := SearchBody cached_data true "L1" |};
         cache_after := cache; trace := [CacheGet (cacheKey_of req q)] |}
| Run_l2 q redisCached :
    param_q req = Some q -> Js.truthy q = true ->
    (Js.truthy_opt (RAINFOREST_API_KEY cfg) = true \/
     Js.truthy_opt (BESTBUY_API_KEY cfg) = true) ->
    l1_lookup cache (cacheKey_of req q) (now env) = None ->
    redis_lookup env = Some redisCached ->
    Run cfg env cache req
      {| response := Some {| status := 200;
                             body := SearchBody redisCached true "REDIS" |};
         cache_after :=
           <[cacheKey_of req q :=
               {| expires := (now env + redis_get_ms env) + CACHE_TTL_MS;
                  data := redisCached |}]> cache;
         trace := [CacheGet (cacheKey_of req q); RedisGet (redisKey_of req q);
                   CacheSet (cacheKey_of req q)
                     {| expires := (now env + redis_get_ms env) + CACHE_TTL_MS;
                        data := redisCached |}] |}
| Run_live q t outcomes :
    param_q req = Some q -> Js.truthy q = true ->
    (Js.truthy_opt (RAINFOREST_API_KEY cfg) = true \/
     Js.truthy_opt (BESTBUY_API_KEY cfg) = true) ->
    l1_lookup cache (cacheKey_of req q) (now env) = None ->
    redis_lookup env = None ->
    Promise_all
      (snd (provider_calls cfg env
              ((providerParam_of req =? "amazon") || (providerParam_of req =? "all"))
              ((providerParam_of req =? "bestbuy") || (providerParam_of req =? "all"))
              q (page_of req)))
    = SettledAt t (Fulfilled outcomes) ->
    (t <= 4000)%N ->
    Run cfg env cache req
      {| response := Some {| status := 200;
                             body := SearchBody (merge outcomes) false "LIVE" |};
         cache_after :=
           <[cacheKey_of req q :=
               {| expires := (now env + redis_get_ms env + t) + CACHE_TTL_MS;
                  data := merge outcomes |}]> cache;
         trace :=
           [CacheGet (cacheKey_of req q); RedisGet (redisKey_of req q)]
           ++ fst (provider_calls cfg env
                     ((providerParam_of req =? "amazon") || (providerParam_of req =? "all"))
                     ((providerParam_of req =? "bestbuy") || (providerParam_of req =? "all"))
                     q (page_of req))
           ++ [CacheSet (cacheKey_of req q)
                 {| expires := (now env + redis_get_ms env + t) + CACHE_TTL_MS;
                    data := merge outcomes |}]
           ++ (if (0 <? length (results (merge outcomes)))%nat
               then [RedisSet (redisKey_of req q) (merge outcomes) REDIS_TTL_SECONDS]
               else []) |}.

(** What an adapter owes its caller, for the credential check [configured],
    the answer [net] of [fetch], the request it may issue and what it gives
    back [out]: it never rejects; without a credential it gives the empty
    outcome at once and issues nothing; with one it issues the request,
    settles when [fetch] does, and turns a rejected [fetch], a status
    outside 200..299 and an undecodable body into the empty outcome. *)
Definition adapter_contract {B : Type} (configured : bool)
    (net : Promise (Http.Response B)) (request : Event)
    (out : list Event * Promise ProviderResult) : Prop :=
  (forall t err, snd out <> SettledAt t (Rejected err)) /\
  (configured = false -> out = ([], SettledAt 0 (Fulfilled empty_outcome))) /\
  (configured = true ->
   fst out = [request] /\
   (snd out = Pending <-> net = Pending) /\
   (forall t err,
      net = SettledAt t (Rejected err) ->
      snd out = SettledAt t (Fulfilled empty_outcome)) /\
   (forall t res,
      net = SettledAt t (Fulfilled res) ->
      Http.ok res = false \/ Http.json res = None ->
      snd out = SettledAt t (Fulfilled empty_outcome)) /\
   (forall t res,
      net = SettledAt t (Fulfilled res) ->
      exists v, snd out = SettledAt t (Fulfilled v))).

(** ** Proof automation *)

(** Takes the handler past the credential check, given that one of the two
    keys is configured. *)
Ltac configured Hkeys :=
  match type of Hkeys with
  | Js.truthy_opt (RAINFOREST_API_KEY ?cfg) = true \/ _ =>
      replace (negb (Js.truthy_opt (RAINFOREST_API_KEY cfg))
               && negb (Js.truthy_opt (BESTBUY_API_KEY cfg))) with false
        by (destruct Hkeys as [-> | ->]; simpl; now rewrite ?andb_false_r)
  end.

(** * Properties *)

(** ** The timeout guard and [Promise.all] *)

Lemma guarded_before_deadline t v :
  (t < 4000)%N -> guarded (SettledAt t (Fulfilled v)) = SettledAt t (Fulfilled v).
Proof.
  intros Ht. unfold guarded, withTimeout.
  apply N.ltb_lt in Ht. rewrite Ht. reflexivity.
Qed.

Lemma guarded_rejected t err :
  fulfils_with (guarded (SettledAt t (Rejected err))) empty_outcome.
Proof.
  unfold guarded, withTimeout.
  destruct (t <? 4000)%N; eexists; reflexivity.
Qed.

Lemma guarded_after_deadline t s :
  (4000 <= t)%N ->
  guarded (SettledAt t s) = SettledAt 4000 (Fulfilled empty_outcome).
Proof.
  intros Ht. unfold guarded, withTimeout.
  apply N.ltb_ge in Ht. rewrite Ht. reflexivity.
Qed.

Lemma guarded_pending :
  guarded Pending = SettledAt 4000 (Fulfilled empty_outcome).
Proof. reflexivity. Qed.

(** A guarded call is always fulfilled, at the latest when the timer
    fires. *)
Lemma guarded_fulfilled call :
  exists t v, guarded call = SettledAt t (Fulfilled v) /\ (t <= 4000)%N.
Proof.
  destruct call as [|t [v|err]].
  - exists 4000%N, empty_outcome. split; [reflexivity | lia].
  - destruct (N.ltb_spec t 4000) as [Hlt|Hge].
    + exists t, v. split; [now apply guarded_before_deadline | lia].
    + exists 4000%N, empty_outcome. split; [now apply guarded_after_deadline | lia].
  - unfold guarded, withTimeout.
    destruct (N.ltb_spec t 4000) as [Hlt|Hge]; simpl.
    + exists t, empty_outcome. split; [reflexivity | lia].
    + exists 4000%N, empty_outcome. split; [reflexivity | lia].
Qed.

Lemma guarded_empty t :
  fulfils_with (guarded (SettledAt t (Fulfilled empty_outcome))) empty_outcome.
Proof.
  destruct (N.ltb_spec t 4000) as [Hlt|Hge].
  - exists t. now apply guarded_before_deadline.
  - exists 4000%N. now apply guarded_after_deadline.
Qed.

Lemma Promise_all_fulfilled {T} (ps : list (Promise T)) (vs : list T) :
  Forall2 fulfils_with ps vs ->
  exists t, Promise_all ps = SettledAt t (Fulfilled vs).
Proof.
  intros H.
  assert (earliest_rejection ps = None /\
          exists t, all_fulfilled ps = Some (t, vs)) as [Hr [t Hf]].
  { induction H as [|p v ps vs [t Hp] _ [IHr [t' IHf]]].
    - split; [reflexivity | now exists 0%N].
    - subst p. simpl. rewrite IHr, IHf. split; [reflexivity | eauto]. }
  exists t. unfold Promise_all. now rewrite Hr, Hf.
Qed.

Lemma Promise_all_fulfilled_inv {T} (ps : list (Promise T)) t (vs : list T) :
  Promise_all ps = SettledAt t (Fulfilled vs) ->
  Forall2 fulfils_with ps vs.
Proof.
  unfold Promise_all.
  destruct (earliest_rejection ps) as [[? ?]|]; [discriminate|].
  destruct (all_fulfilled ps) as [[t' vs']|] eqn:Hf; [|discriminate].
  intros [= <- <-].
  revert t' vs' Hf. induction ps as [|p ps IH]; intros t' vs' Hf; simpl in Hf.
  - injection Hf as _ <-. constructor.
  - destruct p as [|t [v|err]]; try discriminate.
    destruct (all_fulfilled ps) as [[t'' vs'']|]; [|discriminate].
    injection Hf as _ <-. constructor; [now exists t | eauto].
Qed.

(** ** The adapters under the guard *)

Lemma fetchAmazon_guarded_fails cfg net q page :
  fails net ->
  fulfils_with (guarded (snd (fetchAmazon cfg net q page))) empty_outcome.
Proof.
  intros Hf. unfold fetchAmazon.
  destruct (negb (Js.truthy_opt (RAINFOREST_API_KEY cfg))); simpl.
  { apply guarded_empty. }
  destruct Hf as [|t s Ht|t err|t res Hok].
  - now exists 4000%N.
  - exists 4000%N. destruct s; now apply guarded_after_deadline.
  - apply guarded_empty.
  - unfold amazon_outcome. rewrite Hok. simpl. apply guarded_empty.
Qed.

Lemma fetchBestBuy_guarded_fails cfg net q page :
  fails net ->
  fulfils_with (guarded (snd (fetchBestBuy cfg net q page))) empty_outcome.
Proof.
  intros Hf. unfold fetchBestBuy.
  destruct (negb (Js.truthy_opt (BESTBUY_API_KEY cfg))); simpl.
  { apply guarded_empty. }
  destruct Hf as [|t s Ht|t err|t res Hok].
  - now exists 4000%N.
  - exists 4000%N. destruct s; now apply guarded_after_deadline.
  - apply guarded_empty.
  - unfold bestbuy_outcome. rewrite Hok. simpl. apply guarded_empty.
Qed.

Lemma fetchAmazon_guarded_healthy cfg net q page res :
  Js.truthy_opt (RAINFOREST_API_KEY cfg) = true ->
  healthy net res ->
  fulfils_with (guarded (snd (fetchAmazon cfg net q page))) (amazon_outcome res).
Proof.
  intros Hk (t & -> & Ht & _). unfold fetchAmazon. rewrite Hk. simpl.
  exists t. now apply guarded_before_deadline.
Qed.

Lemma fetchBestBuy_guarded_healthy cfg net q page res :
  Js.truthy_opt (BESTBUY_API_KEY cfg) = true ->
  healthy net res ->
  fulfils_with (guarded (snd (fetchBestBuy cfg net q page)))
               (bestbuy_outcome res page).
Proof.
  intros Hk (t & -> & Ht & _). unfold fetchBestBuy. rewrite Hk. simpl.
  exists t. now apply guarded_before_deadline.
Qed.

(** The promises of the live fetch are all fulfilled: [Promise.all] gives
    their values. *)
Lemma provider_calls_fulfilled cfg env useAmazon useBestBuy q page :
  exists outcomes,
    Forall2 fulfils_with
      (snd (provider_calls cfg env useAmazon useBestBuy q page)) outcomes.
Proof.
  unfold provider_calls.
  destruct (fetchAmazon cfg (amazon_fetch env) q page) as [evA pA].
  destruct (fetchBestBuy cfg (bestbuy_fetch env) q page) as [evB pB].
  destruct (guarded_fulfilled pA) as (ta & a & Ha & _).
  destruct (guarded_fulfilled pB) as (tb & b & Hb & _).
  destruct useAmazon, useBestBuy; simpl.
  - exists [a; b]. repeat constructor; eexists; eassumption.
  - exists [a]. repeat constructor; eexists; eassumption.
  - exists [b]. repeat constructor; eexists; eassumption.
  - exists []. constructor.
Qed.

(** ** The stages of the handler *)

Lemma GET_live cfg env cache req q :
  live_fetch_stage cfg env cache req q ->
  GET cfg env cache req =
  live_fetch cfg env cache q (page_of req) (providerParam_of req)
    (makeCacheKey q (page_of req) (providerParam_of req))
    (makeRedisKey q (page_of req) (providerParam_of req))
    (now env + redis_get_ms env)%N
    [CacheGet (makeCacheKey q (page_of req) (providerParam_of req));
     RedisGet (makeRedisKey q (page_of req) (providerParam_of req))].
Proof.
  intros (Hq & Hne & Hkeys & Hl1 & Hl2). unfold GET. rewrite Hq.
  destruct q as [|c q']; [discriminate|].
  configured Hkeys.
  now rewrite Hl1, Hl2.
Qed.

(** The live stage always answers, and what it leaves behind is determined
    by the values of the guarded calls. *)
Lemma live_fetch_outcome cfg env cache q page providerParam cacheKey redisKey t1 before :
  let useAmazon := (providerParam =? "amazon") || (providerParam =? "all") in
  let useBestBuy := (providerParam =? "bestbuy") || (providerParam =? "all") in
  let calls := provider_calls cfg env useAmazon useBestBuy q page in
  exists t outcomes,
    Promise_all (snd calls) = SettledAt t (Fulfilled outcomes) /\
    live_fetch cfg env cache q page providerParam cacheKey redisKey t1 before =
    let payload := merge outcomes in
    let entry := {| expires := (t1 + t) + CACHE_TTL_MS; data := payload |} in
    {| response := Some {| status := 200; body := SearchBody payload false "LIVE" |};
       cache_after := <[cacheKey := entry]> cache;
       trace := before ++ fst calls ++ [CacheSet cacheKey entry]
                ++ (if (0 <? length (results payload))%nat
                    then [RedisSet redisKey payload REDIS_TTL_SECONDS] else []) |}.
Proof.
  intros useAmazon useBestBuy calls.
  destruct (provider_calls_fulfilled cfg env useAmazon useBestBuy q page)
    as [outcomes Hout].
  destruct (Promise_all_fulfilled _ _ Hout) as [t Hall].
  exists t, outcomes. split; [exact Hall|].
  unfold live_fetch. fold useAmazon useBestBuy.
  fold calls in Hall |- *. destruct calls as [evs ps]. simpl in Hall |- *.
  now rewrite Hall.
Qed.

Lemma GET_live_inv cfg env cache req s payload cached :
  response (GET cfg env cache req)
  = Some {| status := s; body := SearchBody payload cached "LIVE" |} ->
  exists q, live_fetch_stage cfg env cache req q.
Proof.
  unfold GET, live_fetch_stage.
  destruct (param_q req) as [[|c q']|]; simpl; try discriminate.
  destruct (Js.truthy_opt (RAINFOREST_API_KEY cfg)) eqn:Ha;
    destruct (Js.truthy_opt (BESTBUY_API_KEY cfg)) eqn:Hb; simpl;
    try discriminate;
    (destruct (l1_lookup _ _ _) eqn:Hl1; simpl; [discriminate|]);
    (destruct (redis_lookup env) eqn:Hl2; simpl; [discriminate|]);
    intros _; exists (String c q'); repeat split; auto.
Qed.

(** ** C1: provider isolation *)

(** C1. For every request that reaches the live-fetch stage the endpoint
    answers HTTP 200 with a live payload, never 500. A provider whose call
    fails (it hangs or misses the 4000 ms deadline, the network rejects, or
    the status is not a success) stands in the merge as the empty outcome
    [{ results: [], hasMore: false }]; with both providers in scope, the
    payload then carries the results of the other, healthy provider (up to
    the cap of 30) and its [hasMore]. *)
Theorem provider_isolation cfg env cache req q :
  live_fetch_stage cfg env cache req q ->
  let page := page_of req in
  let out := GET cfg env cache req in
  (exists payload,
     response out
     = Some {| status := 200; body := SearchBody payload false "LIVE" |}) /\
  (fails (amazon_fetch env) ->
     fulfils_with (guarded (snd (fetchAmazon cfg (amazon_fetch env) q page)))
                  empty_outcome) /\
  (fails (bestbuy_fetch env) ->
     fulfils_with (guarded (snd (fetchBestBuy cfg (bestbuy_fetch env) q page)))
                  empty_outcome) /\
  (providerParam_of req = "all" ->
   fails (amazon_fetch env) ->
   forall res,
     Js.truthy_opt (BESTBUY_API_KEY cfg) = true ->
     healthy (bestbuy_fetch env) res ->
     response out
     = Some {| status := 200;
               body := SearchBody
                 {| results := firstn 30 (results (bestbuy_outcome res page));
                    hasMore := hasMore (bestbuy_outcome res page) |}
                 false "LIVE" |}) /\
  (providerParam_of req = "all" ->
   fails (bestbuy_fetch env) ->
   forall res,
     Js.truthy_opt (RAINFOREST_API_KEY cfg) = true ->
     healthy (amazon_fetch env) res ->
     response out
     = Some {| status := 200;
               body := SearchBody
                 {| results := firstn 30 (results (amazon_outcome res));
                    hasMore := hasMore (amazon_outcome res) |}
                 false "LIVE" |}).
Proof.
  intros Hstage page out.
  assert (Hout : out = GET cfg env cache req) by reflexivity.
  rewrite (GET_live _ _ _ _ _ Hstage) in Hout. fold page in Hout.
  destruct (live_fetch_outcome cfg env cache q page (providerParam_of req)
              (makeCacheKey q page (providerParam_of req))
              (makeRedisKey q page (providerParam_of req))
              (now env + redis_get_ms env)%N
              [CacheGet (makeCacheKey q page (providerParam_of req));
               RedisGet (makeRedisKey q page (providerParam_of req))])
    as (t & outcomes & Hall & Hlive).
  rewrite Hlive in Hout. clear Hlive.
  assert (Hboth : providerParam_of req = "all" ->
            forall a b,
              fulfils_with (guarded (snd (fetchAmazon cfg (amazon_fetch env) q page))) a ->
              fulfils_with (guarded (snd (fetchBestBuy cfg (bestbuy_fetch env) q page))) b ->
              outcomes = [a; b]).
  { intros Hall_scope a b [ta Ha] [tb Hb].
    rewrite Hall_scope in Hall. simpl in Hall.
    unfold provider_calls in Hall.
    destruct (fetchAmazon cfg (amazon_fetch env) q page) as [evA pA].
    destruct (fetchBestBuy cfg (bestbuy_fetch env) q page) as [evB pB].
    simpl in Ha, Hb, Hall. rewrite Ha, Hb in Hall.
    unfold Promise_all in Hall. simpl in Hall. congruence. }
  repeat split.
  - eexists. rewrite Hout. reflexivity.
  - apply fetchAmazon_guarded_fails.
  - apply fetchBestBuy_guarded_fails.
  - intros Hscope Hfail res Hkey Hres.
    rewrite (Hboth Hscope empty_outcome (bestbuy_outcome res page)) in Hout.
    + rewrite Hout. simpl. unfold merge. simpl.
      now rewrite app_nil_r, orb_false_r.
    + now apply fetchAmazon_guarded_fails.
    + now apply fetchBestBuy_guarded_healthy.
  - intros Hscope Hfail res Hkey Hres.
    rewrite (Hboth Hscope (amazon_outcome res) empty_outcome) in Hout.
    + rewrite Hout. simpl. unfold merge. simpl.
      rewrite !app_nil_r, orb_false_r. reflexivity.
    + now apply fetchAmazon_guarded_healthy.
    + now apply fetchBestBuy_guarded_fails.
Qed.

Lemma provider_isolation_witness :
  live_fetch_stage Sample.cfg_both Sample.env_amazon_hangs ∅ Sample.req_all
    "AirPods Pro" /\
  fails (amazon_fetch Sample.env_amazon_hangs) /\
  healthy (bestbuy_fetch Sample.env_amazon_hangs) Sample.bestbuy_ok /\
  response (GET Sample.cfg_both Sample.env_amazon_hangs ∅ Sample.req_all)
  = Some {| status := 200;
            body := SearchBody
              {| results := firstn 30 (results (bestbuy_outcome Sample.bestbuy_ok 1));
                 hasMore := hasMore (bestbuy_outcome Sample.bestbuy_ok 1) |}
              false "LIVE" |}.
Proof.
  assert (Hs : live_fetch_stage Sample.cfg_both Sample.env_amazon_hangs ∅
                 Sample.req_all "AirPods Pro").
  { repeat split; try reflexivity. left; reflexivity. }
  assert (Hf : fails (amazon_fetch Sample.env_amazon_hangs)) by constructor.
  assert (Hh : healthy (bestbuy_fetch Sample.env_amazon_hangs) Sample.bestbuy_ok).
  { exists 200%N. repeat split; reflexivity. }
  split; [exact Hs|]. split; [exact Hf|]. split; [exact Hh|].
  destruct (provider_isolation _ _ _ _ _ Hs) as (_ & _ & _ & H & _).
  apply H; [reflexivity | exact Hf | reflexivity | exact Hh].
Defined.

(** ** The live payload *)

Lemma provider_calls_events cfg env useAmazon useBestBuy q page e :
  In e (fst (provider_calls cfg env useAmazon useBestBuy q page)) ->
  (e = ProviderCall amazon q page /\ useAmazon = true) \/
  (e = HttpFetch amazon q page /\ useAmazon = true) \/
  (e = ProviderCall bestbuy q page /\ useBestBuy = true) \/
  (e = HttpFetch bestbuy q page /\ useBestBuy = true).
Proof.
  unfold provider_calls, fetchAmazon, fetchBestBuy.
  destruct useAmazon, useBestBuy,
    (negb (Js.truthy_opt (RAINFOREST_API_KEY cfg))),
    (negb (Js.truthy_opt (BESTBUY_API_KEY cfg))); simpl; intuition auto.
Qed.

(** A response tagged LIVE comes out of the live stage: the shape of the
    whole outcome. *)
Lemma GET_live_shape cfg env cache req s payload cached :
  response (GET cfg env cache req)
  = Some {| status := s; body := SearchBody payload cached "LIVE" |} ->
  exists q t outcomes,
    live_fetch_stage cfg env cache req q /\
    let page := page_of req in
    let providerParam := providerParam_of req in
    let cacheKey := makeCacheKey q page providerParam in
    let redisKey := makeRedisKey q page providerParam in
    let calls :=
      provider_calls cfg env
        ((providerParam =? "amazon") || (providerParam =? "all"))
        ((providerParam =? "bestbuy") || (providerParam =? "all")) q page in
    let entry := {| expires := (now env + redis_get_ms env + t) + CACHE_TTL_MS;
                    data := payload |} in
    Forall2 fulfils_with (snd calls) outcomes /\
    payload = merge outcomes /\ s = 200%N /\ cached = false /\
    cache_after (GET cfg env cache req) = <[cacheKey := entry]> cache /\
    trace (GET cfg env cache req)
    = [CacheGet cacheKey; RedisGet redisKey] ++ fst calls
      ++ [CacheSet cacheKey entry]
      ++ (if (0 <? length (results payload))%nat
          then [RedisSet redisKey payload REDIS_TTL_SECONDS] else []).
Proof.
  intros Hresp.
  destruct (GET_live_inv _ _ _ _ _ _ _ Hresp) as [q Hstage].
  rewrite (GET_live _ _ _ _ _ Hstage) in Hresp |- *.
  destruct (live_fetch_outcome cfg env cache q (page_of req) (providerParam_of req)
              (makeCacheKey q (page_of req) (providerParam_of req))
              (makeRedisKey q (page_of req) (providerParam_of req))
              (now env + redis_get_ms env)%N
              [CacheGet (makeCacheKey q (page_of req) (providerParam_of req));
               RedisGet (makeRedisKey q (page_of req) (providerParam_of req))])
    as (t & outcomes & Hall & Hlive).
  rewrite Hlive in Hresp |- *. clear Hlive. simpl in Hresp.
  injection Hresp as <- <- <-.
  exists q, t, outcomes. split; [exact Hstage|]. simpl.
  split; [now apply Promise_all_fulfilled_inv with t|].
  repeat split.
Qed.

(** ** C2: cap invariant *)

(** C2. The [results] of every live-merged payload are the result lists of
    the providers in scope, concatenated in the order of the calls, cut to
    the first 30 entries after concatenation; so the list never has more
    than 30 entries. *)
Theorem cap_invariant cfg env cache req s payload cached :
  response (GET cfg env cache req)
  = Some {| status := s; body := SearchBody payload cached "LIVE" |} ->
  exists q outcomes,
    param_q req = Some q /\
    let providerParam := providerParam_of req in
    Forall2 fulfils_with
      (snd (provider_calls cfg env
              ((providerParam =? "amazon") || (providerParam =? "all"))
              ((providerParam =? "bestbuy") || (providerParam =? "all"))
              q (page_of req)))
      outcomes /\
    results payload = firstn 30 (flat_map results outcomes) /\
    (length (results payload) <= 30)%nat.
Proof.
  intros Hresp.
  destruct (GET_live_shape _ _ _ _ _ _ _ Hresp)
    as (q & t & outcomes & Hstage & Hcalls & -> & _).
  exists q, outcomes. split; [apply Hstage|]. simpl.
  split; [exact Hcalls|]. split; [reflexivity|].
  apply firstn_le_length.
Qed.

(** With both providers in scope the calls are Amazon's, then Best Buy's. *)
Lemma provider_calls_all cfg env q page :
  snd (provider_calls cfg env true true q page)
  = [guarded (snd (fetchAmazon cfg (amazon_fetch env) q page));
     guarded (snd (fetchBestBuy cfg (bestbuy_fetch env) q page))].
Proof.
  unfold provider_calls.
  destruct (fetchAmazon cfg (amazon_fetch env) q page),
           (fetchBestBuy cfg (bestbuy_fetch env) q page); reflexivity.
Qed.

Lemma cap_invariant_witness :
  response (GET Sample.cfg_both Sample.env_amazon_full ∅ Sample.req_all)
  = Some {| status := 200;
            body := SearchBody
              (merge [amazon_outcome Sample.amazon_full;
                      bestbuy_outcome Sample.bestbuy_ok 1]) false "LIVE" |} /\
  (length (results (merge [amazon_outcome Sample.amazon_full;
                           bestbuy_outcome Sample.bestbuy_ok 1])) <= 30)%nat.
Proof.
  assert (H : response (GET Sample.cfg_both Sample.env_amazon_full ∅ Sample.req_all)
              = Some {| status := 200;
                        body := SearchBody
                          (merge [amazon_outcome Sample.amazon_full;
                                  bestbuy_outcome Sample.bestbuy_ok 1])
                          false "LIVE" |}) by (vm_compute; reflexivity).
  split; [exact H|].
  destruct (cap_invariant _ _ _ _ _ _ _ H) as (q & outcomes & _ & _ & _ & Hlen).
  exact Hlen.
Defined.

(** ** C7: the merged [hasMore] *)

(** C7. In a live payload [hasMore] is true exactly when the outcome of at
    least one provider in scope has [hasMore = true]; whether that
    provider's results survive the cut to 30 entries plays no part. *)
Theorem hasMore_any_provider cfg env cache req s payload cached :
  response (GET cfg env cache req)
  = Some {| status := s; body := SearchBody payload cached "LIVE" |} ->
  exists q outcomes,
    param_q req = Some q /\
    let providerParam := providerParam_of req in
    Forall2 fulfils_with
      (snd (provider_calls cfg env
              ((providerParam =? "amazon") || (providerParam =? "all"))
              ((providerParam =? "bestbuy") || (providerParam =? "all"))
              q (page_of req)))
      outcomes /\
    results payload = firstn 30 (flat_map results outcomes) /\
    (hasMore payload = true <->
     exists outcome, In outcome outcomes /\ hasMore outcome = true).
Proof.
  intros Hresp.
  destruct (GET_live_shape _ _ _ _ _ _ _ Hresp)
    as (q & t & outcomes & Hstage & Hcalls & -> & _).
  exists q, outcomes. split; [apply Hstage|]. simpl.
  split; [exact Hcalls|]. split; [reflexivity|].
  apply existsb_exists.
Qed.

Lemma hasMore_any_provider_witness :
  response (GET Sample.cfg_both Sample.env_amazon_full ∅ Sample.req_all)
  = Some {| status := 200;
            body := SearchBody
              {| results := map amazon_item (repeat (Sample.item "a") 30);
                 hasMore := true |} false "LIVE" |} /\
  exists outcomes,
    Forall2 fulfils_with
      (snd (provider_calls Sample.cfg_both Sample.env_amazon_full true true
              "AirPods Pro" 1)) outcomes /\
    exists outcome, In outcome outcomes /\ hasMore outcome = true.
Proof.
  assert (H : response (GET Sample.cfg_both Sample.env_amazon_full ∅ Sample.req_all)
              = Some {| status := 200;
                        body := SearchBody
                          {| results := map amazon_item (repeat (Sample.item "a") 30);
                             hasMore := true |} false "LIVE" |})
    by (vm_compute; reflexivity).
  split; [exact H|].
  destruct (hasMore_any_provider _ _ _ _ _ _ _ H)
    as (q & outcomes & Hq & Hcalls & _ & Hmore).
  injection Hq as <-.
  exists outcomes. split; [exact Hcalls|].
  apply Hmore. reflexivity.
Defined.

(** A provider whose results are all cut off still sets [hasMore]: Amazon
    fills the 30 entries and reports no further page, Best Buy reports
    one. *)
Example hasMore_of_truncated_provider :
  let out := GET Sample.cfg_both Sample.env_amazon_full ∅ Sample.req_all in
  hasMore (amazon_outcome Sample.amazon_full) = false /\
  hasMore (bestbuy_outcome Sample.bestbuy_ok 1) = true /\
  response out
  = Some {| status := 200;
            body := SearchBody
              {| results := results (amazon_outcome Sample.amazon_full);
                 hasMore := true |} false "LIVE" |} /\
  forall r, In r (results (bestbuy_outcome Sample.bestbuy_ok 1)) ->
            ~ In r (results (amazon_outcome Sample.amazon_full)).
Proof.
  repeat split; try (vm_compute; reflexivity).
  intros r Hb Ha. vm_compute in Hb, Ha.
  destruct Hb as [<-|[]].
  repeat (destruct Ha as [Ha|Ha]; [discriminate Ha|]). exact Ha.
Qed.

(** ** C5: the cache-write policy *)

(** C5. After a successful live fetch the merged payload is written to L1
    whatever it holds, an empty result list included, and it is written to
    Redis exactly when the result list is not empty: with an empty list no
    Redis write happens at all. *)
Theorem cache_write_policy cfg env cache req s payload cached :
  response (GET cfg env cache req)
  = Some {| status := s; body := SearchBody payload cached "LIVE" |} ->
  exists q t,
    param_q req = Some q /\
    let out := GET cfg env cache req in
    let cacheKey := makeCacheKey q (page_of req) (providerParam_of req) in
    let redisKey := makeRedisKey q (page_of req) (providerParam_of req) in
    let entry := {| expires := t + CACHE_TTL_MS; data := payload |} in
    In (CacheSet cacheKey entry) (trace out) /\
    cache_after out !! cacheKey = Some entry /\
    (In (RedisSet redisKey payload REDIS_TTL_SECONDS) (trace out)
     <-> results payload <> []) /\
    (results payload = [] ->
     forall e, In e (trace out) -> is_redis_write e = false).
Proof.
  intros Hresp.
  destruct (GET_live_shape _ _ _ _ _ _ _ Hresp)
    as (q & t & outcomes & Hstage & Hcalls & Hp & _ & _ & Hcache & Htrace).
  exists q, (now env + redis_get_ms env + t)%N.
  split; [apply Hstage|]. simpl. rewrite Hcache, Htrace. clear Hcache Htrace.
  assert (Hev : forall e,
            In e (fst (provider_calls cfg env
                    ((providerParam_of req =? "amazon") || (providerParam_of req =? "all"))
                    ((providerParam_of req =? "bestbuy") || (providerParam_of req =? "all"))
                    q (page_of req))) ->
            is_redis_write e = false).
  { intros e He. apply provider_calls_events in He.
    destruct He as [[-> _]|[[-> _]|[[-> _]|[-> _]]]]; reflexivity. }
  set (evs := fst (provider_calls _ _ _ _ _ _)) in *. clearbody evs.
  split; [|split; [|split]].
  - rewrite !in_app_iff. right. right. left. now left.
  - apply lookup_insert_eq.
  - destruct (results payload) as [|r rs] eqn:Hr; simpl.
    + split; [|congruence]. intros [Hin|[Hin|Hin]]; try discriminate.
      rewrite in_app_iff in Hin. destruct Hin as [Hin|[Hin|[]]]; [|discriminate].
      apply Hev in Hin. discriminate.
    + split; [discriminate|]. intros _.
      right. right. rewrite !in_app_iff. right. right. now left.
  - intros Hempty e. rewrite Hempty. simpl.
    intros [<-|[<-|Hin]]; try reflexivity.
    rewrite in_app_iff in Hin. destruct Hin as [Hin|[<-|[]]]; [|reflexivity].
    now apply Hev.
Qed.

Lemma cache_write_policy_witness :
  response (GET Sample.cfg_both Sample.env_amazon_hangs ∅ Sample.req_plain)
  = Some {| status := 200; body := SearchBody empty_outcome false "LIVE" |} /\
  exists t,
    cache_after (GET Sample.cfg_both Sample.env_amazon_hangs ∅ Sample.req_plain)
      !! "airpods pro::1::amazon"
    = Some {| expires := t + CACHE_TTL_MS; data := empty_outcome |} /\
    forall e,
      In e (trace (GET Sample.cfg_both Sample.env_amazon_hangs ∅ Sample.req_plain)) ->
      is_redis_write e = false.
Proof.
  assert (H : response (GET Sample.cfg_both Sample.env_amazon_hangs ∅ Sample.req_plain)
              = Some {| status := 200; body := SearchBody empty_outcome false "LIVE" |})
    by (vm_compute; reflexivity).
  split; [exact H|].
  destruct (cache_write_policy _ _ _ _ _ _ _ H) as (q & t & Hq & _ & Hl1 & _ & Hl2).
  injection Hq as <-.
  exists t. split; [exact Hl1|]. apply Hl2. reflexivity.
Defined.

(** ** The cache stages *)

Lemma GET_l1_hit cfg env cache req q cached_data :
  param_q req = Some q -> Js.truthy q = true ->
  (Js.truthy_opt (RAINFOREST_API_KEY cfg) = true \/
   Js.truthy_opt (BESTBUY_API_KEY cfg) = true) ->
  l1_lookup cache (makeCacheKey q (page_of req) (providerParam_of req)) (now env)
  = Some cached_data ->
  GET cfg env cache req =
  {| response := Some {| status := 200; body := SearchBody cached_data true "L1" |};
     cache_after := cache;
     trace := [CacheGet (makeCacheKey q (page_of req) (providerParam_of req))] |}.
Proof.
  intros Hq Hne Hkeys Hl1. unfold GET. rewrite Hq.
  destruct q as [|c q']; [discriminate|].
  configured Hkeys.
  now rewrite Hl1.
Qed.

Lemma GET_l2_hit cfg env cache req q redisCached :
  param_q req = Some q -> Js.truthy q = true ->
  (Js.truthy_opt (RAINFOREST_API_KEY cfg) = true \/
   Js.truthy_opt (BESTBUY_API_KEY cfg) = true) ->
  l1_lookup cache (makeCacheKey q (page_of req) (providerParam_of req)) (now env)
  = None ->
  redis_lookup env = Some redisCached ->
  GET cfg env cache req =
  let cacheKey := makeCacheKey q (page_of req) (providerParam_of req) in
  let redisKey := makeRedisKey q (page_of req) (providerParam_of req) in
  let entry := {| expires := (now env + redis_get_ms env) + CACHE_TTL_MS;
                  data := redisCached |} in
  {| response := Some {| status := 200; body := SearchBody redisCached true "REDIS" |};
     cache_after := <[cacheKey := entry]> cache;
     trace := [CacheGet cacheKey; RedisGet redisKey; CacheSet cacheKey entry] |}.
Proof.
  intros Hq Hne Hkeys Hl1 Hl2. unfold GET. rewrite Hq.
  destruct q as [|c q']; [discriminate|].
  configured Hkeys.
  now rewrite Hl1, Hl2.
Qed.

Lemma l1_lookup_insert (cache : gmap string CacheEntry) key entry date_now :
  (date_now < expires entry)%N ->
  l1_lookup (<[key := entry]> cache) key date_now = Some (data entry).
Proof.
  intros Hlt. unfold l1_lookup. rewrite lookup_insert_eq.
  apply N.ltb_lt in Hlt. now rewrite Hlt.
Qed.

(** ** C6: an L2 hit backfills L1 *)

(** C6. On an L2 hit after an L1 miss the handler, before it answers, stores
    the Redis payload in L1 under the key of the request with the expiry
    [Date.now() + 60000] read at that moment; the same request repeated
    before that expiry is answered from L1 with the same payload, without
    a Redis or provider call. *)
Theorem l2_hit_backfills_l1 cfg env cache req q redisCached :
  param_q req = Some q -> Js.truthy q = true ->
  (Js.truthy_opt (RAINFOREST_API_KEY cfg) = true \/
   Js.truthy_opt (BESTBUY_API_KEY cfg) = true) ->
  l1_lookup cache (makeCacheKey q (page_of req) (providerParam_of req)) (now env)
  = None ->
  redis_get env = RedisValue (Some redisCached) ->
  let cacheKey := makeCacheKey q (page_of req) (providerParam_of req) in
  let out := GET cfg env cache req in
  let backfill_time := (now env + redis_get_ms env)%N in
  response out
  = Some {| status := 200; body := SearchBody redisCached true "REDIS" |} /\
  cache_after out !! cacheKey
  = Some {| expires := backfill_time + 60000; data := redisCached |} /\
  In (CacheSet cacheKey {| expires := backfill_time + 60000; data := redisCached |})
     (trace out) /\
  forall env',
    (now env' < backfill_time + 60000)%N ->
    GET cfg env' (cache_after out) req =
    {| response := Some {| status := 200;
                           body := SearchBody redisCached true "L1" |};
       cache_after := cache_after out;
       trace := [CacheGet cacheKey] |}.
Proof.
  intros Hq Hne Hkeys Hl1 Hredis cacheKey out backfill_time.
  assert (Hl2 : redis_lookup env = Some redisCached)
    by (unfold redis_lookup; now rewrite Hredis).
  assert (Hout : out = GET cfg env cache req) by reflexivity.
  rewrite (GET_l2_hit _ _ _ _ _ _ Hq Hne Hkeys Hl1 Hl2) in Hout.
  simpl in Hout. fold cacheKey backfill_time in Hout.
  rewrite Hout. simpl. clear Hout.
  split; [reflexivity|]. split; [apply lookup_insert_eq|].
  split; [right; right; now left|].
  intros env' Hnow.
  apply GET_l1_hit; try assumption.
  fold cacheKey.
  now rewrite l1_lookup_insert.
Qed.

Lemma l2_hit_backfills_l1_witness :
  response (GET Sample.cfg_both Sample.env_redis_hit ∅ Sample.req_all)
  = Some {| status := 200; body := SearchBody Sample.stored true "REDIS" |} /\
  response (GET Sample.cfg_both Sample.env_healthy
              (cache_after (GET Sample.cfg_both Sample.env_redis_hit ∅ Sample.req_all))
              Sample.req_all)
  = Some {| status := 200; body := SearchBody Sample.stored true "L1" |}.
Proof.
  assert (Hmiss : l1_lookup ∅
            (makeCacheKey "AirPods Pro" (page_of Sample.req_all)
               (providerParam_of Sample.req_all))
            (now Sample.env_redis_hit) = None) by reflexivity.
  destruct (l2_hit_backfills_l1 Sample.cfg_both Sample.env_redis_hit ∅
              Sample.req_all "AirPods Pro" Sample.stored
              eq_refl eq_refl (or_introl eq_refl) Hmiss eq_refl)
    as (H1 & _ & _ & H2).
  split; [exact H1|].
  rewrite (H2 Sample.env_healthy); [reflexivity|].
  vm_compute. reflexivity.
Defined.

(** ** C3: the missing search term *)

(** C3, as the code has it. A request whose [q] is absent or the empty
    string is answered HTTP 400 with [{ error: "Missing search term" }];
    the handler performs no effect for it: no cache lookup, no provider
    call, and L1 is left as it was. *)
Theorem missing_query_rejected cfg env cache req :
  param_q req = None \/ param_q req = Some "" ->
  GET cfg env cache req =
  {| response := Some {| status := 400; body := ErrorBody "Missing search term" |};
     cache_after := cache;
     trace := [] |}.
Proof.
  intros [Hq|Hq]; unfold GET; now rewrite Hq.
Qed.

Lemma missing_query_rejected_witness :
  GET Sample.cfg_both Sample.env_healthy ∅ Sample.req_empty_q =
  {| response := Some {| status := 400; body := ErrorBody "Missing search term" |};
     cache_after := ∅;
     trace := [] |}.
Proof.
  apply (missing_query_rejected Sample.cfg_both Sample.env_healthy ∅
           Sample.req_empty_q).
  right. reflexivity.
Defined.

(** C3 as stated fails on a query made of white space only: [!q] lets it
    through, both cache tiers are looked up and the provider is called,
    and the answer is HTTP 200. *)
Lemma whitespace_query_not_rejected :
  spec_blank_query (param_q Sample.req_spaces) = true /\
  response (GET Sample.cfg_both Sample.env_healthy ∅ Sample.req_spaces)
  = Some {| status := 200;
            body := SearchBody (amazon_outcome Sample.amazon_ok) false "LIVE" |} /\
  trace (GET Sample.cfg_both Sample.env_healthy ∅ Sample.req_spaces)
  = [CacheGet "   ::1::amazon";
     RedisGet "dealscope:search:v1:   ::1::amazon";
     ProviderCall amazon "   " 1;
     HttpFetch amazon "   " 1;
     CacheSet "   ::1::amazon"
       {| expires := 61305; data := amazon_outcome Sample.amazon_ok |};
     RedisSet "dealscope:search:v1:   ::1::amazon"
       (amazon_outcome Sample.amazon_ok) 600].
Proof.
  repeat split; vm_compute; reflexivity.
Qed.

(** ** C4: the provenance tag *)

Lemma GET_search_body_inv cfg env cache req s payload cached layer :
  response (GET cfg env cache req)
  = Some {| status := s; body := SearchBody payload cached layer |} ->
  exists q,
    param_q req = Some q /\ Js.truthy q = true /\
    (Js.truthy_opt (RAINFOREST_API_KEY cfg) = true \/
     Js.truthy_opt (BESTBUY_API_KEY cfg) = true) /\
    s = 200%N /\
    let cacheKey := makeCacheKey q (page_of req) (providerParam_of req) in
    ((layer = "L1" /\ cached = true /\
      l1_lookup cache cacheKey (now env) = Some payload) \/
     (layer = "REDIS" /\ cached = true /\
      l1_lookup cache cacheKey (now env) = None /\
      redis_lookup env = Some payload) \/
     (layer = "LIVE" /\ cached = false /\
      l1_lookup cache cacheKey (now env) = None /\
      redis_lookup env = None)).
Proof.
  unfold GET.
  destruct (param_q req) as [[|c q']|]; simpl; try discriminate.
  intros H. exists (String c q'). split; [reflexivity|]. split; [reflexivity|].
  destruct (Js.truthy_opt (RAINFOREST_API_KEY cfg)) eqn:Ha;
    destruct (Js.truthy_opt (BESTBUY_API_KEY cfg)) eqn:Hb; simpl in H;
    try discriminate;
    (split; [auto|]);
    (destruct (l1_lookup _ _ _) eqn:Hl1; simpl in H;
     [injection H as <- <- <- <-; split; [reflexivity|]; left; auto|]);
    (destruct (redis_lookup env) eqn:Hl2; simpl in H;
     [injection H as <- <- <- <-; split; [reflexivity|]; right; left; auto|]);
    match type of H with
    | response (live_fetch ?a ?b ?c ?d ?e ?f ?g ?h ?i ?j) = _ =>
        destruct (live_fetch_outcome a b c d e f g h i j)
          as (t & outcomes & _ & Hlive);
        rewrite Hlive in H; simpl in H;
        injection H as <- <- <- <-; split; [reflexivity|]; right; right; auto
    end.
Qed.

(** C4, as the code has it. In every successful response [cacheLayer] is
    one of "L1", "REDIS" and "LIVE"; a response served from the L2 (Redis)
    tier, that is after an L1 miss and with a value from Redis, carries
    [cacheLayer: "REDIS"], [cached: true] and that value. *)
Theorem cacheLayer_values cfg env cache req s payload cached layer :
  response (GET cfg env cache req)
  = Some {| status := s; body := SearchBody payload cached layer |} ->
  (layer = "L1" \/ layer = "REDIS" \/ layer = "LIVE") /\
  forall q redisCached,
    param_q req = Some q ->
    l1_lookup cache (makeCacheKey q (page_of req) (providerParam_of req)) (now env)
    = None ->
    redis_get env = RedisValue (Some redisCached) ->
    layer = "REDIS" /\ cached = true /\ payload = redisCached.
Proof.
  intros Hresp.
  destruct (GET_search_body_inv _ _ _ _ _ _ _ _ Hresp)
    as (q & Hq & _ & _ & _ & Hcases). cbv zeta in Hcases.
  split.
  - destruct Hcases as [(-> & _)|[(-> & _)|(-> & _)]]; auto.
  - intros q' v Hq' Hl1 Hredis. rewrite Hq in Hq'. injection Hq' as <-.
    assert (Hl2 : redis_lookup env = Some v)
      by (unfold redis_lookup; now rewrite Hredis).
    destruct Hcases as [(_ & _ & H)|[(-> & -> & _ & H)|(_ & _ & _ & H)]].
    + congruence.
    + split; [reflexivity|]. split; [reflexivity|]. congruence.
    + congruence.
Qed.

Lemma cacheLayer_values_witness :
  response (GET Sample.cfg_both Sample.env_redis_hit ∅ Sample.req_all)
  = Some {| status := 200; body := SearchBody Sample.stored true "REDIS" |} /\
  ("REDIS" = "L1" \/ "REDIS" = "REDIS" \/ "REDIS" = "LIVE").
Proof.
  assert (H : response (GET Sample.cfg_both Sample.env_redis_hit ∅ Sample.req_all)
              = Some {| status := 200;
                        body := SearchBody Sample.stored true "REDIS" |})
    by (vm_compute; reflexivity).
  split; [exact H|].
  exact (proj1 (cacheLayer_values _ _ _ _ _ _ _ _ H)).
Defined.

(** C4 as stated fails on an L2 hit: the response carries "REDIS", which is
    none of "L1", "L2" and "LIVE". *)
Lemma l2_hit_is_not_tagged_L2 :
  l1_lookup ∅ (makeCacheKey "AirPods Pro" 1 "all") (now Sample.env_redis_hit) = None /\
  redis_get Sample.env_redis_hit = RedisValue (Some Sample.stored) /\
  exists layer,
    response (GET Sample.cfg_both Sample.env_redis_hit ∅ Sample.req_all)
    = Some {| status := 200; body := SearchBody Sample.stored true layer |} /\
    layer <> "L1" /\ layer <> "L2" /\ layer <> "LIVE".
Proof.
  split; [reflexivity|]. split; [reflexivity|].
  exists "REDIS". split; [vm_compute; reflexivity|].
  repeat split; discriminate.
Qed.

(** ** C8: the page number *)

Lemma parseInt_empty : Js.parseInt "" = None.
Proof. reflexivity. Qed.

Lemma page_of_parse req p :
  param_page req = Some p -> page_of req = Js.num_or_1 (Js.parseInt p).
Proof.
  intros Hp. unfold page_of. rewrite Hp. now destruct p.
Qed.

(** Every key and every provider call of a run is made with [page_of] and
    [providerParam_of] of the request. *)
Lemma GET_trace_events cfg env cache req e :
  In e (trace (GET cfg env cache req)) ->
  match e with
  | ProviderCall _ q page | HttpFetch _ q page =>
      param_q req = Some q /\ page = page_of req
  | CacheGet key | CacheSet key _ =>
      exists q, param_q req = Some q /\
                key = makeCacheKey q (page_of req) (providerParam_of req)
  | RedisGet key | RedisSet key _ _ =>
      exists q, param_q req = Some q /\
                key = makeRedisKey q (page_of req) (providerParam_of req)
  end.
Proof.
  unfold GET.
  destruct (param_q req) as [[|c q']|]; simpl; try tauto.
  destruct (negb (Js.truthy_opt (RAINFOREST_API_KEY cfg))
            && negb (Js.truthy_opt (BESTBUY_API_KEY cfg))); simpl; try tauto.
  destruct (l1_lookup _ _ _); simpl.
  { intros [<-|[]]. eauto. }
  destruct (redis_lookup env); simpl.
  { intros [<-|[<-|[<-|[]]]]; eauto. }
  match goal with
  | |- In e (trace (live_fetch ?a ?b ?c ?d ?e ?f ?g ?h ?i ?j)) -> _ =>
      destruct (live_fetch_outcome a b c d e f g h i j)
        as (t & outcomes & _ & ->)
  end.
  cbv zeta. unfold trace.
  set (evs := fst (provider_calls _ _ _ _ _ _)).
  assert (Hev : forall e', In e' evs ->
            (e' = ProviderCall amazon (String c q') (page_of req)) \/
            (e' = HttpFetch amazon (String c q') (page_of req)) \/
            (e' = ProviderCall bestbuy (String c q') (page_of req)) \/
            (e' = HttpFetch bestbuy (String c q') (page_of req))).
  { intros e' He'. apply provider_calls_events in He'. tauto. }
  clearbody evs.
  rewrite !in_app_iff.
  intros [[<-|[<-|[]]]|[Hin|[[<-|[]]|Hin]]]; eauto.
  - destruct (Hev _ Hin) as [-> | [-> | [-> | ->]]]; auto.
  - destruct (0 <? length (results (merge outcomes)))%nat; [|destruct Hin].
    destruct Hin as [<-|[]]. eauto.
Qed.

(** C8, as the code has it. Take a request whose [page] parameter is
    absent, empty, unparsable, or has digits that denote an integer of
    magnitude at most 2^53 (where [parseInt] is exact). The page the
    handler uses in its cache keys and provider calls is then a non-zero
    integer of that range: the integer [parseInt(page, 10)] gives when it
    is not zero, a negative one included; and 1 when [page] is absent,
    empty, unparsable or parses to 0. *)
Theorem page_nonzero_or_default cfg env cache req :
  page_param_exact req ->
  page_of req <> 0%Z /\
  exact_integer (page_of req) = true /\
  (forall p n,
     param_page req = Some p -> Js.parseInt p = Some n -> n <> 0%Z ->
     page_of req = n) /\
  (param_page req = None \/
   (exists p, param_page req = Some p /\
              (p = "" \/ Js.parseInt p = None \/ Js.parseInt p = Some 0%Z)) ->
   page_of req = 1%Z) /\
  (forall e, In e (trace (GET cfg env cache req)) ->
     match e with
     | ProviderCall _ _ page | HttpFetch _ _ page => page = page_of req
     | CacheGet key | CacheSet key _ =>
         exists q, key = makeCacheKey q (page_of req) (providerParam_of req)
     | RedisGet key | RedisSet key _ _ =>
         exists q, key = makeRedisKey q (page_of req) (providerParam_of req)
     end).
Proof.
  intros Hexact. split; [|split; [|split; [|split]]].
  - unfold page_of. destruct (param_page req) as [p|]; [|discriminate].
    destruct (Js.truthy p); [|discriminate].
    unfold Js.num_or_1. destruct (Js.parseInt p) as [n|]; [|discriminate].
    destruct (Z.eqb_spec n 0); [discriminate | assumption].
  - destruct (param_page req) as [p|] eqn:Hp;
      [|unfold page_of; now rewrite Hp].
    rewrite (page_of_parse _ _ Hp).
    destruct (Js.parseInt p) as [n|] eqn:Hn; [|reflexivity]. simpl.
    destruct (Z.eqb_spec n 0); [reflexivity|]. now apply (Hexact p n).
  - intros p n Hp Hn Hnz. rewrite (page_of_parse _ _ Hp), Hn. simpl.
    destruct (Z.eqb_spec n 0); [contradiction | reflexivity].
  - intros [Hp|(p & Hp & Hcase)].
    + unfold page_of. now rewrite Hp.
    + rewrite (page_of_parse _ _ Hp).
      destruct Hcase as [-> | [-> | ->]]; reflexivity.
  - intros e He. apply GET_trace_events in He.
    destruct e; try (destruct He as (q & _ & ->); now exists q); apply He.
Qed.

Lemma page_nonzero_or_default_witness :
  page_param_exact Sample.req_page2 /\
  param_page Sample.req_page2 = Some "2" /\ Js.parseInt "2" = Some 2%Z /\
  page_of Sample.req_page2 = 2%Z.
Proof.
  assert (Hexact : page_param_exact Sample.req_page2).
  { intros p n [= <-] [= <-]. reflexivity. }
  split; [exact Hexact|]. split; [reflexivity|]. split; [reflexivity|].
  destruct (page_nonzero_or_default Sample.cfg_both Sample.env_healthy ∅
              Sample.req_page2 Hexact) as (_ & _ & H & _).
  apply (H "2" 2%Z); [reflexivity | reflexivity | discriminate].
Defined.

(** C8 as stated fails on [page=-3]: the page used is -3, in the cache key
    and in the provider call. *)
Lemma negative_page_is_used :
  param_page Sample.req_negative_page = Some "-3" /\
  page_of Sample.req_negative_page = (-3)%Z /\
  ~ (0 < page_of Sample.req_negative_page)%Z /\
  In (CacheGet "tv::-3::amazon")
     (trace (GET Sample.cfg_both Sample.env_healthy ∅ Sample.req_negative_page)) /\
  In (ProviderCall amazon "tv" (-3))
     (trace (GET Sample.cfg_both Sample.env_healthy ∅ Sample.req_negative_page)).
Proof.
  split; [reflexivity|]. split; [reflexivity|]. split; [vm_compute; discriminate|].
  split; vm_compute; tauto.
Qed.

(** ** C9: the default provider scope *)

(** C9, as the code has it. A request without a [provider] parameter is
    processed with the scope "amazon", whichever credentials are
    configured: it is handled exactly as the same request with
    [provider=amazon]. *)
Theorem default_scope_is_amazon cfg env cache req :
  param_provider req = None ->
  providerParam_of req = "amazon" /\
  GET cfg env cache req
  = GET cfg env cache
      {| param_q := param_q req; param_page := param_page req;
         param_provider := Some "amazon" |}.
Proof.
  intros Hp.
  assert (H : providerParam_of req = "amazon")
    by (unfold providerParam_of; now rewrite Hp).
  split; [exact H|].
  unfold GET, page_of. rewrite H. reflexivity.
Qed.

Lemma default_scope_is_amazon_witness :
  providerParam_of Sample.req_plain = "amazon" /\
  GET Sample.cfg_bestbuy_only Sample.env_healthy ∅ Sample.req_plain
  = GET Sample.cfg_bestbuy_only Sample.env_healthy ∅
      {| param_q := Some "AirPods Pro"; param_page := None;
         param_provider := Some "amazon" |}.
Proof.
  exact (default_scope_is_amazon Sample.cfg_bestbuy_only Sample.env_healthy ∅
           Sample.req_plain eq_refl).
Defined.

(** C9 as stated fails when only Best Buy has a credential: the first
    configured provider is "bestbuy", the scope used is "amazon", so Best
    Buy is never called and the payload is empty. *)
Lemma default_scope_ignores_configuration :
  param_provider Sample.req_plain = None /\
  spec_first_configured_tag Sample.cfg_bestbuy_only = Some "bestbuy" /\
  providerParam_of Sample.req_plain = "amazon" /\
  response (GET Sample.cfg_bestbuy_only Sample.env_healthy ∅ Sample.req_plain)
  = Some {| status := 200; body := SearchBody empty_outcome false "LIVE" |} /\
  trace (GET Sample.cfg_bestbuy_only Sample.env_healthy ∅ Sample.req_plain)
  = [CacheGet "airpods pro::1::amazon";
     RedisGet "dealscope:search:v1:airpods pro::1::amazon";
     ProviderCall amazon "AirPods Pro" 1;
     CacheSet "airpods pro::1::amazon"
       {| expires := 61005; data := empty_outcome |}].
Proof.
  repeat split; vm_compute; reflexivity.
Qed.

(** ** C10: an unknown provider tag *)

(** C10, as the code has it. Take a request with a non-empty query, at
    least one configured credential, a non-empty [provider] parameter
    whose lower-cased value is none of "amazon", "bestbuy" and "all", and
    cold caches (no live L1 entry under the key, nothing from Redis). Then
    no provider is called, the answer is HTTP 200 with
    [{ results: [], hasMore: false, cached: false, cacheLayer: "LIVE" }],
    and that empty payload is stored in L1 under the key made with the
    lower-cased tag (and not written to Redis). *)
Theorem unknown_provider_empty_live cfg env cache req q p :
  param_q req = Some q -> Js.truthy q = true ->
  (Js.truthy_opt (RAINFOREST_API_KEY cfg) = true \/
   Js.truthy_opt (BESTBUY_API_KEY cfg) = true) ->
  param_provider req = Some p -> Js.truthy p = true ->
  Js.toLowerCase p <> "amazon" ->
  Js.toLowerCase p <> "bestbuy" ->
  Js.toLowerCase p <> "all" ->
  let cacheKey := makeCacheKey q (page_of req) (Js.toLowerCase p) in
  let redisKey := makeRedisKey q (page_of req) (Js.toLowerCase p) in
  l1_lookup cache cacheKey (now env) = None ->
  redis_lookup env = None ->
  let out := GET cfg env cache req in
  let entry := {| expires := (now env + redis_get_ms env) + CACHE_TTL_MS;
                  data := empty_outcome |} in
  response out
  = Some {| status := 200; body := SearchBody empty_outcome false "LIVE" |} /\
  trace out = [CacheGet cacheKey; RedisGet redisKey; CacheSet cacheKey entry] /\
  (forall e, In e (trace out) -> is_provider_event e = false) /\
  cache_after out = <[cacheKey := entry]> cache /\
  cache_after out !! cacheKey = Some entry.
Proof.
  intros Hq Hne Hkeys Hp Hpne Ha Hb Hall cacheKey redisKey Hl1 Hl2 out entry.
  assert (Hpp : providerParam_of req = Js.toLowerCase p).
  { unfold providerParam_of, Js.or_else. now rewrite Hp, Hpne. }
  assert (Hstage : live_fetch_stage cfg env cache req q).
  { unfold live_fetch_stage. rewrite Hpp. auto. }
  assert (Hout : out = GET cfg env cache req) by reflexivity.
  rewrite (GET_live _ _ _ _ _ Hstage), Hpp in Hout.
  fold cacheKey redisKey in Hout.
  unfold live_fetch in Hout.
  apply String.eqb_neq in Ha, Hb, Hall.
  rewrite Ha, Hb, Hall in Hout. simpl in Hout.
  rewrite N.add_0_r in Hout. fold entry in Hout.
  rewrite Hout. simpl.
  split; [reflexivity|]. split; [reflexivity|].
  split; [|split; [reflexivity | apply lookup_insert_eq]].
  intros e [<-|[<-|[<-|[]]]]; reflexivity.
Qed.

Lemma unknown_provider_empty_live_witness :
  GET Sample.cfg_both Sample.env_healthy ∅ Sample.req_walmart
  = {| response := Some {| status := 200;
                           body := SearchBody empty_outcome false "LIVE" |};
       cache_after :=
         <["tv::1::walmart" := {| expires := 61005; data := empty_outcome |}]> ∅;
       trace := [CacheGet "tv::1::walmart";
                 RedisGet "dealscope:search:v1:tv::1::walmart";
                 CacheSet "tv::1::walmart"
                   {| expires := 61005; data := empty_outcome |}] |}.
Proof.
  assert (Hmiss : l1_lookup ∅
            (makeCacheKey "tv" (page_of Sample.req_walmart) (Js.toLowerCase "Walmart"))
            (now Sample.env_healthy) = None) by reflexivity.
  destruct (unknown_provider_empty_live Sample.cfg_both Sample.env_healthy ∅
              Sample.req_walmart "tv" "Walmart"
              eq_refl eq_refl (or_introl eq_refl) eq_refl eq_refl
              ltac:(discriminate) ltac:(discriminate) ltac:(discriminate)
              Hmiss eq_refl)
    as (Hr & Ht & _ & Hc & _).
  destruct (GET Sample.cfg_both Sample.env_healthy ∅ Sample.req_walmart)
    as [r c t].
  simpl in Hr, Ht, Hc. rewrite Hr, Ht, Hc. reflexivity.
Defined.

(** C10 as stated fails on a [provider] parameter that is there and empty:
    its lower-cased value is none of the three tags, yet ["" || "amazon"]
    makes the scope "amazon", Amazon is called, and the payload is stored
    under the "amazon" key. *)
Lemma empty_provider_parameter_calls_amazon :
  param_provider Sample.req_empty_provider = Some "" /\
  Js.toLowerCase "" <> "amazon" /\
  Js.toLowerCase "" <> "bestbuy" /\
  Js.toLowerCase "" <> "all" /\
  redis_lookup Sample.env_healthy = None /\
  response (GET Sample.cfg_both Sample.env_healthy ∅ Sample.req_empty_provider)
  = Some {| status := 200;
            body := SearchBody (amazon_outcome Sample.amazon_ok) false "LIVE" |} /\
  results (amazon_outcome Sample.amazon_ok) <> [] /\
  trace (GET Sample.cfg_both Sample.env_healthy ∅ Sample.req_empty_provider)
  = [CacheGet "tv::1::amazon";
     RedisGet "dealscope:search:v1:tv::1::amazon";
     ProviderCall amazon "tv" 1;
     HttpFetch amazon "tv" 1;
     CacheSet "tv::1::amazon"
       {| expires := 61305; data := amazon_outcome Sample.amazon_ok |};
     RedisSet "dealscope:search:v1:tv::1::amazon"
       (amazon_outcome Sample.amazon_ok) 600].
Proof.
  split; [reflexivity|]. do 3 (split; [discriminate|]).
  split; [reflexivity|]. split; [vm_compute; reflexivity|].
  split; [discriminate|]. vm_compute. reflexivity.
Qed.
(** ** The built-ins on sample inputs *)

Example parseInt_ex1 : Js.parseInt "42" = Some 42%Z. Proof. reflexivity. Qed.
Example parseInt_ex2 : Js.parseInt "  12abc" = Some 12%Z. Proof. reflexivity. Qed.
Example parseInt_ex3 : Js.parseInt "abc" = None. Proof. reflexivity. Qed.
Example parseInt_ex4 : Js.parseInt "-3" = Some (-3)%Z. Proof. reflexivity. Qed.
Example parseInt_ex5 : Js.parseInt "" = None. Proof. reflexivity. Qed.
Example toLowerCase_ex : Js.toLowerCase "BestBuy" = "bestbuy". Proof. reflexivity. Qed.
Example show_ex : Js.show (-3) = "-3". Proof. reflexivity. Qed.

(** * Further properties of the handler *)

(** ** Every run is one of five *)

Lemma provider_calls_deadline cfg env useAmazon useBestBuy q page t outcomes :
  Promise_all (snd (provider_calls cfg env useAmazon useBestBuy q page))
  = SettledAt t (Fulfilled outcomes) ->
  (t <= 4000)%N.
Proof.
  unfold provider_calls.
  destruct (fetchAmazon cfg (amazon_fetch env) q page) as [evA pA].
  destruct (fetchBestBuy cfg (bestbuy_fetch env) q page) as [evB pB].
  destruct (guarded_fulfilled pA) as (ta & a & Ha & Hta).
  destruct (guarded_fulfilled pB) as (tb & b & Hb & Htb).
  destruct useAmazon, useBestBuy; simpl; rewrite ?Ha, ?Hb;
    unfold Promise_all; simpl; intros [= <- _]; lia.
Qed.

Lemma GET_Run cfg env cache req : Run cfg env cache req (GET cfg env cache req).
Proof.
  destruct (param_q req) as [q|] eqn:Hq.
  2:{ unfold GET. rewrite Hq. apply Run_missing. now left. }
  destruct (Js.truthy q) eqn:Hne.
  2:{ destruct q; [|discriminate]. unfold GET. rewrite Hq.
      apply Run_missing. now right. }
  destruct (Js.truthy_opt (RAINFOREST_API_KEY cfg)) eqn:Ha,
           (Js.truthy_opt (BESTBUY_API_KEY cfg)) eqn:Hb.
  4:{ unfold GET. rewrite Hq, Ha, Hb. destruct q; [discriminate|].
      now apply Run_unconfigured with (String a q). }
  all: assert (Hkeys : Js.truthy_opt (RAINFOREST_API_KEY cfg) = true \/
                       Js.truthy_opt (BESTBUY_API_KEY cfg) = true)
         by (rewrite Ha, Hb; auto);
       clear Ha Hb;
       destruct (l1_lookup cache (cacheKey_of req q) (now env)) as [d|] eqn:Hl1;
       [ rewrite (GET_l1_hit _ _ _ _ _ _ Hq Hne Hkeys Hl1);
         now apply Run_l1
       | destruct (redis_lookup env) as [v|] eqn:Hl2;
         [ rewrite (GET_l2_hit _ _ _ _ _ _ Hq Hne Hkeys Hl1 Hl2);
           now apply Run_l2
         | assert (Hstage : live_fetch_stage cfg env cache req q)
             by (repeat split; assumption);
           rewrite (GET_live _ _ _ _ _ Hstage);
           match goal with
           | |- Run _ _ _ _ (live_fetch ?a ?b ?c ?d ?e ?f ?g ?h ?i ?j) =>
               destruct (live_fetch_outcome a b c d e f g h i j)
                 as (t & outcomes & Hall & ->)
           end;
           apply Run_live; try assumption;
           now apply provider_calls_deadline in Hall ] ].
Qed.

Lemma l1_lookup_Some (cache : gmap string CacheEntry) key date_now d :
  l1_lookup cache key date_now = Some d <->
  exists entry, cache !! key = Some entry /\ (date_now < expires entry)%N /\
                data entry = d.
Proof.
  unfold l1_lookup. split.
  - destruct (cache !! key) as [c|]; [|discriminate].
    destruct (N.ltb_spec date_now (expires c)); [|discriminate].
    intros [= <-]. eauto.
  - intros (c & -> & Hlt & <-). apply N.ltb_lt in Hlt. now rewrite Hlt.
Qed.

Lemma scope_of_flag providerParam tag :
  (providerParam =? tag) || (providerParam =? "all") = true ->
  providerParam = tag \/ providerParam = "all".
Proof.
  intros H. apply orb_true_iff in H.
  destruct H as [H|H]; apply String.eqb_eq in H; auto.
Qed.

(** The effects of issuing the calls, with the reason for each. *)
Lemma provider_calls_effects cfg env useAmazon useBestBuy q page e :
  In e (fst (provider_calls cfg env useAmazon useBestBuy q page)) ->
  exists p,
    (p = amazon /\ useAmazon = true \/ p = bestbuy /\ useBestBuy = true) /\
    In (ProviderCall p q page)
       (fst (provider_calls cfg env useAmazon useBestBuy q page)) /\
    (e = ProviderCall p q page \/
     e = HttpFetch p q page /\ Js.truthy_opt (api_key cfg p) = true).
Proof.
  unfold provider_calls, fetchAmazon, fetchBestBuy.
  destruct useAmazon, useBestBuy,
    (Js.truthy_opt (RAINFOREST_API_KEY cfg)) eqn:Ha,
    (Js.truthy_opt (BESTBUY_API_KEY cfg)) eqn:Hb; simpl;
    intros He; repeat (destruct He as [<-|He]); try destruct He;
    first [ exists amazon; simpl; split; [tauto|]; split; [tauto|];
            first [ now left | right; split; [reflexivity | assumption] ]
          | exists bestbuy; simpl; split; [tauto|]; split; [tauto|];
            first [ now left | right; split; [reflexivity | assumption] ] ].
Qed.

(** ** The status of the response *)

(** Every request is answered, with status 400, 500 or 200: 400 exactly
    when [q] is absent or empty (whatever the configuration), 500 exactly
    when [q] is there and neither credential is configured, 200 with a
    search body otherwise. The body "Search failed" is never sent: the
    guarded calls cannot make [Promise.all] reject. *)
Theorem GET_status cfg env cache req :
  exists r,
    response (GET cfg env cache req) = Some r /\
    (status r = 400%N <-> (param_q req = None \/ param_q req = Some "")) /\
    (status r = 500%N <->
       Js.truthy_opt (param_q req) = true /\
       Js.truthy_opt (RAINFOREST_API_KEY cfg) = false /\
       Js.truthy_opt (BESTBUY_API_KEY cfg) = false) /\
    (status r = 400%N /\ body r = ErrorBody "Missing search term" \/
     status r = 500%N /\
       body r = ErrorBody "Server is not configured with any provider API keys" \/
     status r = 200%N /\
       exists payload cached layer, body r = SearchBody payload cached layer).
Proof.
  destruct (GET_Run cfg env cache req)
    as [Hq|q Hq Hne Ha Hb|q d Hq Hne Hkeys _|q v Hq Hne Hkeys _ _
        |q t outcomes Hq Hne Hkeys _ _ _ _];
    eexists; (split; [reflexivity|]); simpl.
  - split; [tauto|]. split; [|auto].
    split; [discriminate|]. intros (H & _).
    destruct Hq as [Hq|Hq]; rewrite Hq in H; discriminate.
  - rewrite Hq. simpl. split; [|split; [tauto | auto]].
    split; [discriminate|]. intros [H|H]; [discriminate|].
    injection H as ->. discriminate.
  - rewrite Hq. simpl. split; [|split; [|right; right; eauto]].
    + split; [discriminate|]. intros [H|H]; [discriminate|].
      injection H as ->. discriminate.
    + split; [discriminate|]. intros (_ & Ha & Hb).
      destruct Hkeys; congruence.
  - rewrite Hq. simpl. split; [|split; [|right; right; eauto]].
    + split; [discriminate|]. intros [H|H]; [discriminate|].
      injection H as ->. discriminate.
    + split; [discriminate|]. intros (_ & Ha & Hb).
      destruct Hkeys; congruence.
  - rewrite Hq. simpl. split; [|split; [|right; right; eauto]].
    + split; [discriminate|]. intros [H|H]; [discriminate|].
      injection H as ->. discriminate.
    + split; [discriminate|]. intros (_ & Ha & Hb).
      destruct Hkeys; congruence.
Qed.

Lemma GET_status_witness :
  exists r,
    response (GET Sample.cfg_both Sample.env_amazon_hangs ∅ Sample.req_all) = Some r /\
    status r = 200%N.
Proof.
  destruct (GET_status Sample.cfg_both Sample.env_amazon_hangs ∅ Sample.req_all)
    as (r & Hr & H400 & H500 & Hcases).
  exists r. split; [exact Hr|].
  destruct Hcases as [[H _]|[[H _]|[H _]]]; [| |exact H].
  - apply H400 in H. destruct H as [H|H]; discriminate H.
  - apply H500 in H. destruct H as (_ & H & _). discriminate H.
Defined.

(** ** The order of the tiers *)

(** A provider is called only after both cache tiers were asked and
    missed: whenever the trace of a run holds a provider call or a request
    to a retailer, L1 had no live entry, Redis gave nothing (or threw), and
    the trace starts with the L1 lookup followed by the Redis lookup. *)
Theorem providers_called_after_cache_misses cfg env cache req e :
  In e (trace (GET cfg env cache req)) ->
  is_provider_event e = true ->
  exists q,
    param_q req = Some q /\
    l1_lookup cache (cacheKey_of req q) (now env) = None /\
    redis_lookup env = None /\
    exists rest,
      trace (GET cfg env cache req)
      = CacheGet (cacheKey_of req q) :: RedisGet (redisKey_of req q) :: rest.
Proof.
  destruct (GET_Run cfg env cache req)
    as [Hq|q Hq Hne Ha Hb|q d Hq Hne Hkeys _|q v Hq Hne Hkeys _ _
        |q t outcomes Hq Hne Hkeys Hl1 Hl2 _ _]; simpl.
  - intros [].
  - intros [].
  - intros [<-|[]]. discriminate.
  - intros [<-|[<-|[<-|[]]]]; discriminate.
  - intros _ _. exists q. repeat split; try assumption. eauto.
Qed.

Lemma providers_called_after_cache_misses_witness :
  exists rest,
    trace (GET Sample.cfg_both Sample.env_healthy ∅ Sample.req_plain)
    = CacheGet "airpods pro::1::amazon"
      :: RedisGet "dealscope:search:v1:airpods pro::1::amazon" :: rest.
Proof.
  destruct (providers_called_after_cache_misses Sample.cfg_both Sample.env_healthy ∅
              Sample.req_plain (ProviderCall amazon "AirPods Pro" 1))
    as (q & Hq & _ & _ & rest & Hrest).
  - vm_compute. tauto.
  - reflexivity.
  - injection Hq as <-. exists rest. exact Hrest.
Defined.

(** ** What is written to Redis *)

(** Redis is written on the live path only, and never with an empty list:
    a [redis.set] in the trace of a run carries the TTL of 600 seconds, the
    Redis key of the request, and a payload with at least one and at most
    30 results, which is the payload the response returns with
    [cacheLayer: "LIVE"]. *)
Theorem redis_written_only_with_results cfg env cache req key value ex :
  In (RedisSet key value ex) (trace (GET cfg env cache req)) ->
  ex = 600%N /\
  results value <> [] /\
  (length (results value) <= 30)%nat /\
  response (GET cfg env cache req)
  = Some {| status := 200; body := SearchBody value false "LIVE" |} /\
  exists q, param_q req = Some q /\ key = redisKey_of req q.
Proof.
  destruct (GET_Run cfg env cache req)
    as [Hq|q Hq Hne Ha Hb|q d Hq Hne Hkeys _|q v Hq Hne Hkeys _ _
        |q t outcomes Hq Hne Hkeys Hl1 Hl2 _ _]; cbn [trace response app In].
  - intros [].
  - intros [].
  - intros [H|[]]. discriminate.
  - intros [H|[H|[H|[]]]]; discriminate.
  - intros [H|[H|H]]; try discriminate.
    apply in_app_iff in H. destruct H as [H|[H|H]]; [|discriminate|].
    + apply provider_calls_effects in H.
      destruct H as (p & _ & _ & [H|[H _]]); discriminate.
    + assert (Hlen : (length (results (merge outcomes)) <= 30)%nat)
        by apply firstn_le_length.
      destruct (results (merge outcomes)) as [|r rs] eqn:Hres; simpl in H;
        [destruct H|].
      destruct H as [[= <- <- <-]|[]].
      split; [reflexivity|]. split; [congruence|].
      split; [now rewrite Hres|].
      split; [reflexivity|]. eauto.
Qed.

Lemma redis_written_only_with_results_witness :
  results (amazon_outcome Sample.amazon_ok) <> [] /\
  response (GET Sample.cfg_both Sample.env_healthy ∅ Sample.req_plain)
  = Some {| status := 200;
            body := SearchBody (amazon_outcome Sample.amazon_ok) false "LIVE" |}.
Proof.
  destruct (redis_written_only_with_results Sample.cfg_both Sample.env_healthy ∅
              Sample.req_plain "dealscope:search:v1:airpods pro::1::amazon"
              (amazon_outcome Sample.amazon_ok) 600)
    as (_ & Hne & _ & Hr & _).
  - vm_compute. tauto.
  - split; assumption.
Defined.

(** ** What a run does to L1 *)

(** A run touches L1 under the key of its own request at most: every other
    key maps to what it mapped to before, and no entry is ever removed, an
    expired one included. *)
Theorem GET_touches_one_key cfg env cache req :
  (forall k,
     (forall q, param_q req = Some q -> k <> cacheKey_of req q) ->
     cache_after (GET cfg env cache req) !! k = cache !! k) /\
  (forall k,
     is_Some (cache !! k) ->
     is_Some (cache_after (GET cfg env cache req) !! k)).
Proof.
  destruct (GET_Run cfg env cache req)
    as [Hq|q Hq Hne Ha Hb|q d Hq Hne Hkeys _|q v Hq Hne Hkeys _ _
        |q t outcomes Hq Hne Hkeys Hl1 Hl2 _ _]; simpl;
    (split; [intros k Hk | intros k Hsome]); try assumption; try reflexivity.
  - apply lookup_insert_ne. intros <-. now apply (Hk q).
  - rewrite lookup_insert. case_decide; [eauto | assumption].
  - apply lookup_insert_ne. intros <-. now apply (Hk q).
  - rewrite lookup_insert. case_decide; [eauto | assumption].
Qed.

Lemma GET_touches_one_key_witness :
  cache_after (GET Sample.cfg_both Sample.env_healthy
                 (<["other" := {| expires := 1; data := empty_outcome |}]> ∅)
                 Sample.req_plain) !! "other"
  = Some {| expires := 1; data := empty_outcome |}.
Proof.
  destruct (GET_touches_one_key Sample.cfg_both Sample.env_healthy
              (<["other" := {| expires := 1; data := empty_outcome |}]> ∅)
              Sample.req_plain) as [H _].
  rewrite H; [reflexivity|].
  intros q [= <-]. vm_compute. discriminate.
Defined.

(** After a successful response L1 holds, under the key of the request, a
    live entry with the payload that was returned, whichever tier served
    it; the same request arriving at the same clock reading is answered
    from L1 with that payload. *)
Theorem success_leaves_live_l1_entry cfg env cache req s payload cached layer :
  response (GET cfg env cache req)
  = Some {| status := s; body := SearchBody payload cached layer |} ->
  exists q entry,
    param_q req = Some q /\
    cache_after (GET cfg env cache req) !! cacheKey_of req q = Some entry /\
    data entry = payload /\
    (now env < expires entry)%N /\
    forall env',
      now env' = now env ->
      GET cfg env' (cache_after (GET cfg env cache req)) req
      = {| response := Some {| status := 200;
                               body := SearchBody payload true "L1" |};
           cache_after := cache_after (GET cfg env cache req);
           trace := [CacheGet (cacheKey_of req q)] |}.
Proof.
  intros Hresp.
  assert (Hrepeat : forall q entry,
            param_q req = Some q -> Js.truthy q = true ->
            (Js.truthy_opt (RAINFOREST_API_KEY cfg) = true \/
             Js.truthy_opt (BESTBUY_API_KEY cfg) = true) ->
            cache_after (GET cfg env cache req) !! cacheKey_of req q = Some entry ->
            data entry = payload ->
            (now env < expires entry)%N ->
            forall env',
              now env' = now env ->
              GET cfg env' (cache_after (GET cfg env cache req)) req
              = {| response := Some {| status := 200;
                                       body := SearchBody payload true "L1" |};
                   cache_after := cache_after (GET cfg env cache req);
                   trace := [CacheGet (cacheKey_of req q)] |}).
  { intros q entry Hq Hne Hkeys Hentry Hdata Hlive env' Hnow.
    apply GET_l1_hit; try assumption.
    apply l1_lookup_Some. exists entry. rewrite Hnow. auto. }
  revert Hresp Hrepeat.
  destruct (GET_Run cfg env cache req)
    as [Hq|q Hq Hne Ha Hb|q d Hq Hne Hkeys Hl1|q v Hq Hne Hkeys _ _
        |q t outcomes Hq Hne Hkeys Hl1 Hl2 _ _]; simpl;
    intros Hresp Hrepeat; try discriminate;
    injection Hresp as <- <- <- <-.
  - apply l1_lookup_Some in Hl1. destruct Hl1 as (entry & Hentry & Hlive & Hdata).
    exists q, entry. repeat split; eauto.
  - eexists q, _. split; [exact Hq|].
    split; [apply lookup_insert_eq|]. split; [reflexivity|].
    assert (Hlive : (now env < now env + redis_get_ms env + CACHE_TTL_MS)%N)
      by (unfold CACHE_TTL_MS; lia).
    split; [exact Hlive|].
    eapply Hrepeat;
      [exact Hq | exact Hne | exact Hkeys | apply lookup_insert_eq
      | reflexivity | exact Hlive].
  - eexists q, _. split; [exact Hq|].
    split; [apply lookup_insert_eq|]. split; [reflexivity|].
    assert (Hlive : (now env < now env + redis_get_ms env + t + CACHE_TTL_MS)%N)
      by (unfold CACHE_TTL_MS; lia).
    split; [exact Hlive|].
    eapply Hrepeat;
      [exact Hq | exact Hne | exact Hkeys | apply lookup_insert_eq
      | reflexivity | exact Hlive].
Qed.

Lemma success_leaves_live_l1_entry_witness :
  response (GET Sample.cfg_both Sample.env_healthy
              (cache_after (GET Sample.cfg_both Sample.env_healthy ∅ Sample.req_plain))
              Sample.req_plain)
  = Some {| status := 200;
            body := SearchBody (amazon_outcome Sample.amazon_ok) true "L1" |}.
Proof.
  assert (H : response (GET Sample.cfg_both Sample.env_healthy ∅ Sample.req_plain)
              = Some {| status := 200;
                        body := SearchBody (amazon_outcome Sample.amazon_ok)
                                  false "LIVE" |}) by (vm_compute; reflexivity).
  destruct (success_leaves_live_l1_entry _ _ _ _ _ _ _ _ H)
    as (q & entry & _ & _ & _ & _ & Hrepeat).
  now rewrite (Hrepeat Sample.env_healthy eq_refl).
Defined.

(** ** When L1 answers *)

(** The response is served from L1 exactly when the query is there, a
    credential is configured and L1 holds, under the key of the request,
    an entry whose expiry is strictly later than the clock: an entry that
    expires at this very millisecond is not served. *)
Theorem l1_hit_iff_live_entry cfg env cache req payload :
  response (GET cfg env cache req)
  = Some {| status := 200; body := SearchBody payload true "L1" |}
  <->
  exists q entry,
    param_q req = Some q /\ Js.truthy q = true /\
    (Js.truthy_opt (RAINFOREST_API_KEY cfg) = true \/
     Js.truthy_opt (BESTBUY_API_KEY cfg) = true) /\
    cache !! cacheKey_of req q = Some entry /\
    (now env < expires entry)%N /\
    data entry = payload.
Proof.
  split.
  - destruct (GET_Run cfg env cache req)
      as [Hq|q Hq Hne Ha Hb|q d Hq Hne Hkeys Hl1|q v Hq Hne Hkeys _ _
          |q t outcomes Hq Hne Hkeys _ _ _ _]; simpl; try discriminate.
    intros [= <-]. apply l1_lookup_Some in Hl1.
    destruct Hl1 as (entry & Hentry & Hlive & Hdata).
    exists q, entry. auto 10.
  - intros (q & entry & Hq & Hne & Hkeys & Hentry & Hlive & Hdata).
    rewrite (GET_l1_hit cfg env cache req q payload); auto.
    apply l1_lookup_Some. eauto.
Qed.

Lemma l1_hit_iff_live_entry_witness :
  response (GET Sample.cfg_both Sample.env_healthy
              (<["airpods pro::1::all" :=
                   {| expires := 1000; data := Sample.stored |}]> ∅)
              Sample.req_all)
  <> Some {| status := 200; body := SearchBody Sample.stored true "L1" |}.
Proof.
  intros H.
  apply (proj1 (l1_hit_iff_live_entry _ _ _ _ _)) in H.
  destruct H as (q & entry & Hq & _ & _ & Hentry & Hlive & _).
  injection Hq as <-.
  vm_compute in Hentry. injection Hentry as <-.
  vm_compute in Hlive. discriminate Hlive.
Defined.

(** ** A failing Redis *)

(** A [redis.get] that throws is handled as a miss: the run is the one the
    same request has when Redis answers [null], in its response, in L1 and
    in its effects. *)
Theorem redis_failure_is_a_miss cfg env cache req :
  GET cfg (with_redis_get env RedisThrows) cache req
  = GET cfg (with_redis_get env (RedisValue None)) cache req.
Proof.
  unfold GET, redis_lookup, with_redis_get; simpl.
  destruct (param_q req) as [[|c q]|]; reflexivity.
Qed.

(** ** The deadline of the fan-out *)

(** The live fetch ends within 4000 ms of its start, whatever the
    providers do (hang included): the L1 entry it writes is stamped
    [t + 60000] for a clock reading [t] between the end of the Redis
    lookup and 4000 ms later. *)
Theorem live_fetch_within_deadline cfg env cache req s payload cached :
  response (GET cfg env cache req)
  = Some {| status := s; body := SearchBody payload cached "LIVE" |} ->
  exists q t,
    param_q req = Some q /\
    (now env + redis_get_ms env <= t <= now env + redis_get_ms env + 4000)%N /\
    cache_after (GET cfg env cache req) !! cacheKey_of req q
    = Some {| expires := t + 60000; data := payload |}.
Proof.
  destruct (GET_Run cfg env cache req)
    as [Hq|q Hq Hne Ha Hb|q d Hq Hne Hkeys Hl1|q v Hq Hne Hkeys _ _
        |q t outcomes Hq Hne Hkeys _ _ _ Ht]; simpl; try discriminate.
  intros [= <- <-].
  exists q, (now env + redis_get_ms env + t)%N.
  split; [exact Hq|]. split; [lia|]. apply lookup_insert_eq.
Qed.

Lemma live_fetch_within_deadline_witness :
  exists t,
    (t <= 1000 + 5 + 4000)%N /\
    cache_after (GET Sample.cfg_both Sample.env_amazon_hangs ∅ Sample.req_all)
      !! "airpods pro::1::all"
    = Some {| expires := t + 60000;
              data := merge [empty_outcome; bestbuy_outcome Sample.bestbuy_ok 1] |}.
Proof.
  assert (H : response (GET Sample.cfg_both Sample.env_amazon_hangs ∅ Sample.req_all)
              = Some {| status := 200;
                        body := SearchBody
                          (merge [empty_outcome; bestbuy_outcome Sample.bestbuy_ok 1])
                          false "LIVE" |}) by (vm_compute; reflexivity).
  destruct (live_fetch_within_deadline _ _ _ _ _ _ _ H) as (q & t & Hq & Ht & Hc).
  injection Hq as <-.
  exists t. split; [apply Ht | exact Hc].
Defined.

(** ** Which retailer is contacted *)

(** A provider is called only when the scope names it or is "all", and a
    request goes out to a retailer only when, on top of that, its
    credential is configured; both carry the query as the caller sent it
    and the page the handler computed. *)
Theorem provider_contact_needs_scope_and_key cfg env cache req p q page :
  (In (ProviderCall p q page) (trace (GET cfg env cache req)) ->
   (providerParam_of req = source_tag p \/ providerParam_of req = "all") /\
   param_q req = Some q /\ page = page_of req) /\
  (In (HttpFetch p q page) (trace (GET cfg env cache req)) ->
   Js.truthy_opt (api_key cfg p) = true /\
   In (ProviderCall p q page) (trace (GET cfg env cache req))).
Proof.
  assert (Hmid : forall (before evs after : list Event) e,
            In e (before ++ evs ++ after) ->
            is_provider_event e = true ->
            (forall x, In x before -> is_provider_event x = false) ->
            (forall x, In x after -> is_provider_event x = false) ->
            In e evs).
  { intros before evs after e Hin He Hb Ha.
    apply in_app_iff in Hin. destruct Hin as [Hin|Hin].
    { apply Hb in Hin. congruence. }
    apply in_app_iff in Hin. destruct Hin as [Hin|Hin]; [assumption|].
    apply Ha in Hin. congruence. }
  destruct (GET_Run cfg env cache req)
    as [Hq|q' Hq Hne Ha Hb|q' d Hq Hne Hkeys Hl1|q' v Hq Hne Hkeys _ _
        |q' t outcomes Hq Hne Hkeys _ _ _ Ht]; cbn [trace].
  - split; intros [].
  - split; intros [].
  - split; intros [H|[]]; discriminate.
  - split; intros [H|[H|[H|[]]]]; discriminate.
  - set (calls := provider_calls _ _ _ _ _ _).
    assert (Hcalls : forall e,
              is_provider_event e = true ->
              In e ([CacheGet (cacheKey_of req q'); RedisGet (redisKey_of req q')]
                    ++ fst calls ++
                    [CacheSet (cacheKey_of req q')
                       {| expires := now env + redis_get_ms env + t + CACHE_TTL_MS;
                          data := merge outcomes |}] ++
                    (if (0 <? length (results (merge outcomes)))%nat
                     then [RedisSet (redisKey_of req q') (merge outcomes)
                             REDIS_TTL_SECONDS]
                     else [])) ->
              In e (fst calls)).
    { intros e He Hin. apply Hmid in Hin; try assumption.
      - intros x [<-|[<-|[]]]; reflexivity.
      - intros x [<-|Hx]; [reflexivity|].
        destruct (0 <? _)%nat; [|destruct Hx].
        destruct Hx as [<-|[]]. reflexivity. }
    assert (Hback : forall e,
              In e (fst calls) ->
              In e ([CacheGet (cacheKey_of req q'); RedisGet (redisKey_of req q')]
                    ++ fst calls ++
                    [CacheSet (cacheKey_of req q')
                       {| expires := now env + redis_get_ms env + t + CACHE_TTL_MS;
                          data := merge outcomes |}] ++
                    (if (0 <? length (results (merge outcomes)))%nat
                     then [RedisSet (redisKey_of req q') (merge outcomes)
                             REDIS_TTL_SECONDS]
                     else []))).
    { intros e He. apply in_app_iff. right. apply in_app_iff. now left. }
    split; intros H; apply Hcalls in H; try reflexivity;
      apply provider_calls_effects in H;
      destruct H as (p' & Hscope & Hcall & [He|[He Hkey]]);
      try discriminate He; injection He as -> -> ->.
    + split; [|auto].
      destruct Hscope as [[-> Hs]|[-> Hs]]; now apply scope_of_flag in Hs.
    + split; [assumption | now apply Hback].
Qed.

Lemma provider_contact_needs_scope_and_key_witness :
  providerParam_of Sample.req_all = "all" /\
  Js.truthy_opt (api_key Sample.cfg_both bestbuy) = true.
Proof.
  destruct (provider_contact_needs_scope_and_key Sample.cfg_both Sample.env_healthy ∅
              Sample.req_all bestbuy "AirPods Pro" 1) as [H1 H2].
  split.
  - destruct H1 as ([H|H] & _); [vm_compute; tauto | discriminate H | exact H].
  - apply H2. vm_compute. tauto.
Defined.

(** ** Where the results come from *)

Lemma guarded_value (p : Promise ProviderResult) v :
  fulfils_with (guarded p) v ->
  v = empty_outcome \/ exists t, p = SettledAt t (Fulfilled v).
Proof.
  intros [t' H]. destruct p as [|t [w|err]].
  - rewrite guarded_pending in H. left. congruence.
  - destruct (N.ltb_spec t 4000) as [Hlt|Hge].
    + rewrite guarded_before_deadline in H by assumption.
      right. exists t. congruence.
    + rewrite guarded_after_deadline in H by assumption. left. congruence.
  - destruct (guarded_rejected t err) as [t'' H']. left. congruence.
Qed.

Lemma amazon_outcome_sources res :
  Forall (fun r => source r = amazon) (results (amazon_outcome res)).
Proof.
  unfold amazon_outcome.
  destruct (negb (Http.ok res)); [constructor|].
  destruct (Http.json res) as [json|]; [|constructor]. simpl.
  induction (default [] (Rainforest.search_results json)); constructor; auto.
Qed.

Lemma bestbuy_outcome_sources res page :
  Forall (fun r => source r = bestbuy) (results (bestbuy_outcome res page)).
Proof.
  unfold bestbuy_outcome.
  destruct (negb (Http.ok res)); [constructor|].
  destruct (Http.json res) as [json|]; [|constructor]. simpl.
  induction (default [] (BestBuyApi.products json)); constructor; auto.
Qed.

(** What a guarded Amazon call can be fulfilled with. *)
Lemma fetchAmazon_guarded_value cfg net q page v :
  fulfils_with (guarded (snd (fetchAmazon cfg net q page))) v ->
  v = empty_outcome \/
  Js.truthy_opt (RAINFOREST_API_KEY cfg) = true /\
  exists t res, net = SettledAt t (Fulfilled res) /\ (t < 4000)%N /\
                v = amazon_outcome res.
Proof.
  intros H. unfold fetchAmazon in H.
  destruct (Js.truthy_opt (RAINFOREST_API_KEY cfg)); simpl in H.
  - destruct net as [|t [res|err]].
    + left. destruct H as [t H]. rewrite guarded_pending in H. congruence.
    + destruct (N.ltb_spec t 4000) as [Hlt|Hge].
      * destruct H as [t' H]. rewrite guarded_before_deadline in H by assumption.
        right. split; [reflexivity|]. exists t, res. repeat split; congruence.
      * destruct H as [t' H]. rewrite guarded_after_deadline in H by assumption.
        left. congruence.
    + apply guarded_value in H. destruct H as [H|[t' H]]; [auto | left; congruence].
  - apply guarded_value in H. destruct H as [H|[t' H]]; [auto | left; congruence].
Qed.

Lemma fetchBestBuy_guarded_value cfg net q page v :
  fulfils_with (guarded (snd (fetchBestBuy cfg net q page))) v ->
  v = empty_outcome \/
  Js.truthy_opt (BESTBUY_API_KEY cfg) = true /\
  exists t res, net = SettledAt t (Fulfilled res) /\ (t < 4000)%N /\
                v = bestbuy_outcome res page.
Proof.
  intros H. unfold fetchBestBuy in H.
  destruct (Js.truthy_opt (BESTBUY_API_KEY cfg)); simpl in H.
  - destruct net as [|t [res|err]].
    + left. destruct H as [t H]. rewrite guarded_pending in H. congruence.
    + destruct (N.ltb_spec t 4000) as [Hlt|Hge].
      * destruct H as [t' H]. rewrite guarded_before_deadline in H by assumption.
        right. split; [reflexivity|]. exists t, res. repeat split; congruence.
      * destruct H as [t' H]. rewrite guarded_after_deadline in H by assumption.
        left. congruence.
    + apply guarded_value in H. destruct H as [H|[t' H]]; [auto | left; congruence].
  - apply guarded_value in H. destruct H as [H|[t' H]]; [auto | left; congruence].
Qed.

(** The values of the live fetch: Amazon's when it is in scope, then Best
    Buy's when it is. *)
Lemma provider_calls_values cfg env useAmazon useBestBuy q page outcomes :
  Forall2 fulfils_with
    (snd (provider_calls cfg env useAmazon useBestBuy q page)) outcomes ->
  exists a b,
    outcomes = (if useAmazon then [a] else []) ++ (if useBestBuy then [b] else []) /\
    (useAmazon = true ->
     fulfils_with (guarded (snd (fetchAmazon cfg (amazon_fetch env) q page))) a) /\
    (useBestBuy = true ->
     fulfils_with (guarded (snd (fetchBestBuy cfg (bestbuy_fetch env) q page))) b).
Proof.
  unfold provider_calls.
  destruct (fetchAmazon cfg (amazon_fetch env) q page) as [evA pA].
  destruct (fetchBestBuy cfg (bestbuy_fetch env) q page) as [evB pB].
  destruct useAmazon, useBestBuy; simpl; intros H.
  - inversion H as [|? a ? l Ha Hl]; subst.
    inversion Hl as [|? b ? l' Hb Hl']; subst.
    inversion Hl'; subst. exists a, b. auto.
  - inversion H as [|? a ? l Ha Hl]; subst. inversion Hl; subst.
    exists a, empty_outcome. repeat split; auto. discriminate.
  - inversion H as [|? b ? l Hb Hl]; subst. inversion Hl; subst.
    exists empty_outcome, b. repeat split; auto. discriminate.
  - inversion H; subst. exists empty_outcome, empty_outcome.
    repeat split; auto; discriminate.
Qed.

(** In a live payload the results tagged [amazon] come first and those
    tagged [bestbuy] after them, each results of that retailer; a provider
    that is out of scope or has no credential contributes none. *)
Theorem live_results_grouped_by_source cfg env cache req s payload cached :
  response (GET cfg env cache req)
  = Some {| status := s; body := SearchBody payload cached "LIVE" |} ->
  exists from_amazon from_bestbuy,
    results payload = from_amazon ++ from_bestbuy /\
    Forall (fun r => source r = amazon) from_amazon /\
    Forall (fun r => source r = bestbuy) from_bestbuy /\
    (providerParam_of req <> "amazon" -> providerParam_of req <> "all" ->
     from_amazon = []) /\
    (providerParam_of req <> "bestbuy" -> providerParam_of req <> "all" ->
     from_bestbuy = []) /\
    (Js.truthy_opt (RAINFOREST_API_KEY cfg) = false -> from_amazon = []) /\
    (Js.truthy_opt (BESTBUY_API_KEY cfg) = false -> from_bestbuy = []).
Proof.
  destruct (GET_Run cfg env cache req)
    as [Hq|q Hq Hne Ha Hb|q d Hq Hne Hkeys Hl1|q v Hq Hne Hkeys _ _
        |q t outcomes Hq Hne Hkeys _ _ Hall Ht]; simpl; try discriminate.
  intros [= <- <-].
  apply Promise_all_fulfilled_inv in Hall.
  apply provider_calls_values in Hall.
  destruct Hall as (a & b & -> & Ha & Hb).
  set (useAmazon := (providerParam_of req =? "amazon") || (providerParam_of req =? "all")) in *.
  set (useBestBuy := (providerParam_of req =? "bestbuy") || (providerParam_of req =? "all")) in *.
  set (ra := if useAmazon then results a else []).
  set (rb := if useBestBuy then results b else []).
  assert (Hcat : flat_map results
                   ((if useAmazon then [a] else []) ++ (if useBestBuy then [b] else []))
                 = ra ++ rb).
  { unfold ra, rb. destruct useAmazon, useBestBuy; simpl;
      now rewrite ?app_nil_r. }
  assert (HA : Forall (fun r => source r = amazon) ra /\
               (Js.truthy_opt (RAINFOREST_API_KEY cfg) = false -> ra = [])).
  { unfold ra. destruct useAmazon; [|split; [constructor | reflexivity]].
    destruct (fetchAmazon_guarded_value _ _ _ _ _ (Ha eq_refl))
      as [->|(Hk & t' & res & _ & _ & ->)].
    - split; [constructor | reflexivity].
    - split; [apply amazon_outcome_sources | congruence]. }
  assert (HB : Forall (fun r => source r = bestbuy) rb /\
               (Js.truthy_opt (BESTBUY_API_KEY cfg) = false -> rb = [])).
  { unfold rb. destruct useBestBuy; [|split; [constructor | reflexivity]].
    destruct (fetchBestBuy_guarded_value _ _ _ _ _ (Hb eq_refl))
      as [->|(Hk & t' & res & _ & _ & ->)].
    - split; [constructor | reflexivity].
    - split; [apply bestbuy_outcome_sources | congruence]. }
  exists (firstn 30 ra), (firstn (30 - length ra) rb).
  unfold merge; cbn [results]. rewrite Hcat, firstn_app.
  split; [reflexivity|].
  split; [apply Forall_take, HA|]. split; [apply Forall_take, HB|].
  repeat split.
  - intros H1 H2. apply String.eqb_neq in H1, H2.
    unfold ra, useAmazon. now rewrite H1, H2.
  - intros H1 H2. apply String.eqb_neq in H1, H2.
    unfold rb, useBestBuy. rewrite H1, H2. simpl. now destruct (30 - _)%nat.
  - intros Hk. now rewrite (proj2 HA Hk).
  - intros Hk. rewrite (proj2 HB Hk). now destruct (30 - _)%nat.
Qed.

Lemma live_results_grouped_by_source_witness :
  exists from_amazon from_bestbuy,
    results (merge [amazon_outcome Sample.amazon_ok;
                    bestbuy_outcome Sample.bestbuy_ok 1])
    = from_amazon ++ from_bestbuy /\
    Forall (fun r => source r = amazon) from_amazon /\
    Forall (fun r => source r = bestbuy) from_bestbuy.
Proof.
  assert (H : response (GET Sample.cfg_both Sample.env_healthy ∅ Sample.req_all)
              = Some {| status := 200;
                        body := SearchBody
                          (merge [amazon_outcome Sample.amazon_ok;
                                  bestbuy_outcome Sample.bestbuy_ok 1])
                          false "LIVE" |}) by (vm_compute; reflexivity).
  destruct (live_results_grouped_by_source _ _ _ _ _ _ _ H)
    as (ra & rb & Hcat & Ha & Hb & _).
  exists ra, rb. auto.
Defined.

(** ** Requests that share a cache entry *)

Lemma makeCacheKey_lower q1 q2 page provider :
  Js.toLowerCase q1 = Js.toLowerCase q2 ->
  makeCacheKey q1 page provider = makeCacheKey q2 page provider.
Proof. intros H. unfold makeCacheKey. now rewrite H. Qed.

(** The cache is blind to the letter case of the query: once a live fetch
    has answered a request, a request whose query differs in letter case
    only (same page, same scope) is answered from L1 with the payload
    fetched for the first spelling, without any Redis or provider call, as
    long as it arrives within 60 seconds of the end of the first Redis
    lookup. *)
Theorem live_payload_shared_across_case
    cfg env cache req1 q1 s payload cached req2 q2 env' :
  response (GET cfg env cache req1)
  = Some {| status := s; body := SearchBody payload cached "LIVE" |} ->
  param_q req1 = Some q1 ->
  param_q req2 = Some q2 -> Js.truthy q2 = true ->
  Js.toLowerCase q2 = Js.toLowerCase q1 ->
  page_of req2 = page_of req1 ->
  providerParam_of req2 = providerParam_of req1 ->
  (now env' < now env + redis_get_ms env + 60000)%N ->
  GET cfg env' (cache_after (GET cfg env cache req1)) req2
  = {| response := Some {| status := 200; body := SearchBody payload true "L1" |};
       cache_after := cache_after (GET cfg env cache req1);
       trace := [CacheGet (cacheKey_of req1 q1)] |}.
Proof.
  intros Hresp Hq1 Hq2 Hne Hlow Hpage Hscope Hnow.
  assert (Hkey : cacheKey_of req2 q2 = cacheKey_of req1 q1).
  { unfold cacheKey_of. rewrite Hpage, Hscope. now apply makeCacheKey_lower. }
  revert Hresp.
  destruct (GET_Run cfg env cache req1)
    as [Hq|q Hq Hne' Ha Hb|q d Hq Hne' Hkeys Hl1|q v Hq Hne' Hkeys _ _
        |q t outcomes Hq Hne' Hkeys _ _ _ Ht]; simpl; try discriminate.
  intros [= <- <-]. rewrite Hq1 in Hq. injection Hq as <-.
  rewrite (GET_l1_hit cfg env' _ req2 q2 (merge outcomes) Hq2 Hne Hkeys).
  - fold (cacheKey_of req2 q2). now rewrite Hkey.
  - fold (cacheKey_of req2 q2). rewrite Hkey.
    rewrite l1_lookup_insert; [reflexivity|]. simpl. unfold CACHE_TTL_MS. lia.
Qed.

Lemma live_payload_shared_across_case_witness :
  response
    (GET Sample.cfg_both Sample.env_healthy
       (cache_after (GET Sample.cfg_both Sample.env_healthy ∅ Sample.req_plain))
       {| param_q := Some "AIRPODS PRO"; param_page := Some "1";
          param_provider := Some "Amazon" |})
  = Some {| status := 200;
            body := SearchBody (amazon_outcome Sample.amazon_ok) true "L1" |}.
Proof.
  assert (H : response (GET Sample.cfg_both Sample.env_healthy ∅ Sample.req_plain)
              = Some {| status := 200;
                        body := SearchBody (amazon_outcome Sample.amazon_ok)
                                  false "LIVE" |}) by (vm_compute; reflexivity).
  rewrite (live_payload_shared_across_case _ _ _ _ "AirPods Pro" _ _ _
             {| param_q := Some "AIRPODS PRO"; param_page := Some "1";
                param_provider := Some "Amazon" |} "AIRPODS PRO"
             Sample.env_healthy H);
    try reflexivity.
Defined.

Lemma lower_char_idempotent c : Js.lower_char (Js.lower_char c) = Js.lower_char c.
Proof. destruct c as [[] [] [] [] [] [] [] []]; reflexivity. Qed.

Lemma toLowerCase_idempotent s : Js.toLowerCase (Js.toLowerCase s) = Js.toLowerCase s.
Proof.
  induction s as [|c s IH]; [reflexivity|].
  simpl. now rewrite lower_char_idempotent, IH.
Qed.

(** The [provider] parameter is read without regard to letter case: a
    request is handled exactly as the one that carries the lower-cased
    parameter, down to the cache keys. *)
Theorem provider_parameter_case_insensitive cfg env cache req p :
  param_provider req = Some p ->
  GET cfg env cache req
  = GET cfg env cache (with_provider req (Some (Js.toLowerCase p))).
Proof.
  intros Hp.
  assert (H : providerParam_of (with_provider req (Some (Js.toLowerCase p)))
              = providerParam_of req).
  { unfold providerParam_of, with_provider. rewrite Hp. simpl.
    destruct p as [|c p]; [reflexivity|]. simpl.
    now rewrite lower_char_idempotent, toLowerCase_idempotent. }
  unfold GET. rewrite H. reflexivity.
Qed.

Lemma provider_parameter_case_insensitive_witness :
  GET Sample.cfg_both Sample.env_healthy ∅
    {| param_q := Some "tv"; param_page := None; param_provider := Some "BestBuy" |}
  = GET Sample.cfg_both Sample.env_healthy ∅
    {| param_q := Some "tv"; param_page := None; param_provider := Some "bestbuy" |}.
Proof.
  exact (provider_parameter_case_insensitive Sample.cfg_both Sample.env_healthy ∅
           {| param_q := Some "tv"; param_page := None;
              param_provider := Some "BestBuy" |} "BestBuy" eq_refl).
Defined.

(** ** The merge *)

(** The merged list has [min(30, total)] entries, so nothing is lost while
    the providers together return at most 30; the first provider keeps its
    first 30 results in place, and the providers after it share what is
    left of the 30 slots. *)
Theorem merge_shares_the_cap first rest :
  length (results (merge (first :: rest)))
  = Nat.min 30 (length (flat_map results (first :: rest))) /\
  ((length (flat_map results (first :: rest)) <= 30)%nat ->
   results (merge (first :: rest)) = flat_map results (first :: rest)) /\
  exists tail,
    results (merge (first :: rest)) = firstn 30 (results first) ++ tail /\
    tail = firstn (30 - length (results first)) (flat_map results rest) /\
    length tail
    = Nat.min (30 - length (results first)) (length (flat_map results rest)).
Proof.
  unfold merge. cbn [results flat_map].
  split; [apply length_firstn|].
  split; [intros Hle; now apply firstn_all2|].
  eexists. rewrite firstn_app.
  split; [reflexivity|]. split; [reflexivity|]. apply length_firstn.
Qed.

Lemma merge_shares_the_cap_witness :
  results (merge [amazon_outcome Sample.amazon_ok; bestbuy_outcome Sample.bestbuy_ok 1])
  = results (amazon_outcome Sample.amazon_ok)
    ++ results (bestbuy_outcome Sample.bestbuy_ok 1).
Proof.
  destruct (merge_shares_the_cap (amazon_outcome Sample.amazon_ok)
              [bestbuy_outcome Sample.bestbuy_ok 1]) as (_ & H & _).
  rewrite H.
  - vm_compute. reflexivity.
  - vm_compute. lia.
Defined.

(** ** Rendering and parsing integers *)

Lemma show_shape z :
  Js.show z =
  match z with
  | Z0 => "0"
  | Zpos p => pretty_N_go (Npos p) ""
  | Zneg p => "-" +:+ pretty_N_go (Npos p) ""
  end.
Proof. destruct z; reflexivity. Qed.

Lemma pretty_N_char_digit y :
  (y < 10)%N ->
  is_digit (pretty_N_char y) = true /\
  Js.digit_of (pretty_N_char y) = Some (Z.of_N y) /\
  Ascii.eqb (pretty_N_char y) ":" = false /\
  Js.is_space (pretty_N_char y) = false.
Proof.
  intros Hy.
  assert (H : (y = 0 \/ y = 1 \/ y = 2 \/ y = 3 \/ y = 4 \/ y = 5 \/ y = 6
               \/ y = 7 \/ y = 8 \/ y = 9)%N) by lia.
  repeat (destruct H as [-> | H]; [repeat split; reflexivity | ]).
  subst. repeat split; reflexivity.
Qed.

(** The digits of a positive number: they start with a digit, hold digits
    only when what follows does, and read back as the number. *)
Lemma pretty_N_go_digits x :
  (0 < x)%N ->
  (forall s, exists c r, pretty_N_go x s = String c r /\ is_digit c = true) /\
  (forall s, all_digits s = true -> all_digits (pretty_N_go x s) = true) /\
  (forall s, colon_free s = true -> colon_free (pretty_N_go x s) = true) /\
  exists m,
    forall s acc seen,
      Js.digits (pretty_N_go x s) acc seen = Js.digits s (acc * m + Z.of_N x)%Z true.
Proof.
  induction (N.lt_wf_0 x) as [x _ IH]. intros Hx.
  assert (Hstep := fun s => pretty_N_go_step x s Hx).
  assert (Hmod : (N.modulo x 10 < 10)%N) by (apply N.mod_lt; lia).
  destruct (pretty_N_char_digit _ Hmod) as (Hd & Hv & Hc & _).
  destruct (N.eq_dec (N.div x 10) 0%N) as [Hz|Hnz].
  - assert (Hsmall : (N.modulo x 10 = x)%N) by (apply N.mod_small; apply N.div_small_iff in Hz; lia).
    repeat split.
    + intros s. rewrite Hstep, Hz, pretty_N_go_0. eauto.
    + intros s Hs. rewrite Hstep, Hz, pretty_N_go_0. simpl. now rewrite Hd.
    + intros s Hs. rewrite Hstep, Hz, pretty_N_go_0. simpl. now rewrite Hc.
    + exists 10%Z. intros s acc seen.
      rewrite Hstep, Hz, pretty_N_go_0. simpl. rewrite Hv, Hsmall.
      f_equal. lia.
  - assert (Hlt : (N.div x 10 < x)%N) by (apply N.div_lt; lia).
    assert (Hpos : (0 < N.div x 10)%N) by now apply N.neq_0_lt_0.
    destruct (IH _ Hlt Hpos) as (IH1 & IH2 & IH3 & m & IH4).
    repeat split.
    + intros s. rewrite Hstep. apply IH1.
    + intros s Hs. rewrite Hstep. apply IH2. simpl. now rewrite Hd.
    + intros s Hs. rewrite Hstep. apply IH3. simpl. now rewrite Hc.
    + exists (10 * m)%Z. intros s acc seen.
      rewrite Hstep, IH4. simpl. rewrite Hv. f_equal.
      assert (Hdm : Z.of_N x = (10 * Z.of_N (N.div x 10) + Z.of_N (N.modulo x 10))%Z)
        by (rewrite (N.div_mod x 10) at 1 by lia; lia).
      rewrite Hdm. clear. lia.
Qed.

Lemma parseInt_digit_start c r :
  is_digit c = true ->
  Js.parseInt (String c r) = Js.digits (String c r) 0 false.
Proof.
  destruct c as [[] [] [] [] [] [] [] []]; try discriminate; reflexivity.
Qed.

(** A rendered integer is parsed back to itself. *)
Lemma parseInt_show z : Js.parseInt (Js.show z) = Some z.
Proof.
  rewrite show_shape. destruct z as [|p|p]; [reflexivity| |].
  - destruct (pretty_N_go_digits (Npos p)) as (H1 & _ & _ & m & H4); [lia|].
    destruct (H1 "") as (c & r & Hcr & Hd).
    rewrite Hcr, parseInt_digit_start by assumption.
    rewrite <- Hcr, H4. reflexivity.
  - destruct (pretty_N_go_digits (Npos p)) as (_ & _ & _ & m & H4); [lia|].
    change (Js.parseInt ("-" +:+ pretty_N_go (N.pos p) ""))
      with (option_map Z.opp (Js.digits (pretty_N_go (N.pos p) "") 0 false)).
    rewrite H4. reflexivity.
Qed.

(** The handler reads back a page number written in decimal: for an
    integer [n] of magnitude at most 2^53 (the integers a double holds
    exactly, printed in plain decimal), a [page] parameter that is the
    rendering of [n] gives page [n], and page 1 when [n] is 0; the page
    part of the cache key is then the very text that was sent. *)
Theorem page_round_trip req n :
  exact_integer n = true ->
  param_page req = Some (Js.show n) ->
  page_of req = (if (n =? 0)%Z then 1 else n)%Z /\
  exact_integer (page_of req) = true /\
  (n <> 0%Z -> Js.show (page_of req) = Js.show n).
Proof.
  intros Hn Hp.
  assert (H : page_of req = (if (n =? 0)%Z then 1 else n)%Z).
  { rewrite (page_of_parse _ _ Hp), parseInt_show. reflexivity. }
  split; [exact H|]. rewrite H.
  destruct (Z.eqb_spec n 0); [split; [reflexivity | contradiction]|].
  split; [exact Hn | reflexivity].
Qed.

Lemma page_round_trip_witness :
  exact_integer (-3) = true /\ page_of Sample.req_negative_page = (-3)%Z.
Proof.
  split; [reflexivity|].
  exact (proj1 (page_round_trip Sample.req_negative_page (-3) eq_refl eq_refl)).
Defined.

(** ** The cache keys *)

Lemma string_app_assoc (a b c : string) : (a +:+ b) +:+ c = a +:+ (b +:+ c).
Proof.
  induction a as [|x a IH]; [reflexivity|].
  change (String x ((a +:+ b) +:+ c) = String x (a +:+ (b +:+ c))).
  now rewrite IH.
Qed.

Lemma string_length_app (a b : string) :
  String.length (a +:+ b) = String.length a + String.length b.
Proof.
  induction a as [|x a IH]; [reflexivity|].
  change (S (String.length (a +:+ b)) = S (String.length a + String.length b)).
  now rewrite IH.
Qed.

Lemma string_app_inv_tail (x y t : string) : x +:+ t = y +:+ t -> x = y.
Proof.
  intros H.
  assert (Hlen : String.length x = String.length y).
  { apply (f_equal String.length) in H. rewrite !string_length_app in H. lia. }
  revert y H Hlen. induction x as [|c x IH]; intros [|d y] H Hlen;
    try discriminate Hlen; [reflexivity|].
  change (String c (x +:+ t) = String d (y +:+ t)) in H.
  injection H as -> H. f_equal. apply IH; [assumption|].
  simpl in Hlen. lia.
Qed.

Lemma colon_free_app_colon (a b : string) :
  colon_free (a +:+ String ":" b) = false.
Proof.
  induction a as [|x a IH]; [reflexivity|].
  change (negb (Ascii.eqb x ":") && colon_free (a +:+ String ":" b) = false).
  rewrite IH. apply andb_false_r.
Qed.

(** Text is cut in one way only at a ["::"] followed by colon-free text. *)
Lemma split_at_last_separator (a b d1 d2 : string) :
  colon_free d1 = true -> colon_free d2 = true ->
  a +:+ String ":" (String ":" d1) = b +:+ String ":" (String ":" d2) ->
  a = b /\ d1 = d2.
Proof.
  intros H1 H2. revert b.
  induction a as [|x a IH]; intros [|y b] H.
  - change (String ":" (String ":" d1) = String ":" (String ":" d2)) in H.
    injection H as ->. auto.
  - exfalso.
    change (String ":" (String ":" d1)
            = String y (b +:+ String ":" (String ":" d2))) in H.
    injection H as <- H.
    destruct b as [|z b].
    + change (String ":" d1 = String ":" (String ":" d2)) in H.
      injection H as ->. discriminate H1.
    + change (String ":" d1 = String z (b +:+ String ":" (String ":" d2))) in H.
      injection H as <- ->.
      now rewrite colon_free_app_colon in H1.
  - exfalso.
    change (String x (a +:+ String ":" (String ":" d1))
            = String ":" (String ":" d2)) in H.
    injection H as -> H.
    destruct a as [|z a].
    + change (String ":" (String ":" d1) = String ":" d2) in H.
      injection H as <-. discriminate H2.
    + change (String z (a +:+ String ":" (String ":" d1)) = String ":" d2) in H.
      injection H as -> <-.
      now rewrite colon_free_app_colon in H2.
  - change (String x (a +:+ String ":" (String ":" d1))
            = String y (b +:+ String ":" (String ":" d2))) in H.
    injection H as -> H.
    destruct (IH _ H) as [-> ->]. auto.
Qed.

Lemma show_colon_free z : colon_free (Js.show z) = true.
Proof.
  rewrite show_shape. destruct z as [|p|p]; [reflexivity| |].
  - destruct (pretty_N_go_digits (Npos p)) as (_ & _ & H & _); [lia|].
    now apply H.
  - destruct (pretty_N_go_digits (Npos p)) as (_ & _ & H & _); [lia|].
    change (negb (Ascii.eqb "-" ":") && colon_free (pretty_N_go (N.pos p) "") = true).
    now rewrite H.
Qed.

Lemma show_inj z1 z2 : Js.show z1 = Js.show z2 -> z1 = z2.
Proof.
  intros H. apply (f_equal Js.parseInt) in H.
  rewrite !parseInt_show in H. congruence.
Qed.

(** Within one scope two requests have the same L1 key, and the same
    Redis key, exactly when their queries agree up to letter case and
    their pages are equal: requests for different pages never share an
    entry, even when the query text contains ["::"]. The Redis key is the
    L1 key behind the version prefix. *)
Theorem cache_keys_separate_requests q1 page1 q2 page2 provider :
  (makeCacheKey q1 page1 provider = makeCacheKey q2 page2 provider
   <-> Js.toLowerCase q1 = Js.toLowerCase q2 /\ page1 = page2) /\
  (makeRedisKey q1 page1 provider = makeRedisKey q2 page2 provider
   <-> Js.toLowerCase q1 = Js.toLowerCase q2 /\ page1 = page2) /\
  makeRedisKey q1 page1 provider
  = "dealscope:search:v1:" +:+ makeCacheKey q1 page1 provider.
Proof.
  assert (Hkey : makeCacheKey q1 page1 provider = makeCacheKey q2 page2 provider
                 -> Js.toLowerCase q1 = Js.toLowerCase q2 /\ page1 = page2).
  { assert (Hshape : forall q page,
              makeCacheKey q page provider
              = (Js.toLowerCase q +:+ String ":" (String ":" (Js.show page)))
                +:+ ("::" +:+ provider)).
    { intros q page. unfold makeCacheKey.
      rewrite string_app_assoc.
      change (String ":" (String ":" (Js.show page)) +:+ "::" +:+ provider)
        with ("::" +:+ (Js.show page +:+ "::" +:+ provider)).
      reflexivity. }
    rewrite !Hshape. intros H.
    apply string_app_inv_tail in H.
    apply split_at_last_separator in H; try apply show_colon_free.
    destruct H as [Hq Hp]. split; [exact Hq | now apply show_inj]. }
  split; [|split].
  - split; [exact Hkey|]. intros [Hq ->]. unfold makeCacheKey. now rewrite Hq.
  - split.
    + unfold makeRedisKey. intros H. apply Hkey. unfold makeCacheKey.
      now apply (inj (String.app "dealscope:search:v1:")) in H.
    + intros [Hq ->]. unfold makeRedisKey. now rewrite Hq.
  - reflexivity.
Qed.

Lemma cache_keys_separate_requests_witness :
  makeCacheKey "tv::1" 2 "all" <> makeCacheKey "tv" 1 "all".
Proof.
  intros H.
  apply (proj1 (proj1 (cache_keys_separate_requests "tv::1" 2 "tv" 1 "all"))) in H.
  destruct H as [_ H]. discriminate H.
Defined.

(** ** The adapters *)

(** Both adapters keep their errors to themselves: [fetchAmazon] and
    [fetchBestBuy] never reject; without their credential they give the
    empty outcome at once and send nothing; with it they send one request,
    settle when [fetch] settles, and answer a network error, a status
    outside 200..299 and an undecodable body with the empty outcome. *)
Theorem adapters_contain_their_failures cfg q page :
  (forall net,
     adapter_contract (Js.truthy_opt (RAINFOREST_API_KEY cfg)) net
       (HttpFetch amazon q page) (fetchAmazon cfg net q page)) /\
  (forall net,
     adapter_contract (Js.truthy_opt (BESTBUY_API_KEY cfg)) net
       (HttpFetch bestbuy q page) (fetchBestBuy cfg net q page)).
Proof.
  split; intros net; unfold adapter_contract, fetchAmazon, fetchBestBuy.
  - destruct (Js.truthy_opt (RAINFOREST_API_KEY cfg)); simpl.
    + split; [destruct net as [|t [res|e]]; discriminate|].
      split; [discriminate|]. intros _.
      split; [reflexivity|].
      split; [destruct net as [|t [res|e]]; split; (reflexivity || discriminate)|].
      split; [now intros t err ->|].
      split; [|intros t res ->; eauto].
      intros t res -> [Hok|Hjson]; unfold amazon_outcome.
      * now rewrite Hok.
      * rewrite Hjson. now destruct (negb (Http.ok res)).
    + split; [discriminate|]. split; [reflexivity | discriminate].
  - destruct (Js.truthy_opt (BESTBUY_API_KEY cfg)); simpl.
    + split; [destruct net as [|t [res|e]]; discriminate|].
      split; [discriminate|]. intros _.
      split; [reflexivity|].
      split; [destruct net as [|t [res|e]]; split; (reflexivity || discriminate)|].
      split; [now intros t err ->|].
      split; [|intros t res ->; eauto].
      intros t res -> [Hok|Hjson]; unfold bestbuy_outcome.
      * now rewrite Hok.
      * rewrite Hjson. now destruct (negb (Http.ok res)).
    + split; [discriminate|]. split; [reflexivity | discriminate].
Qed.

Lemma adapters_contain_their_failures_witness :
  snd (fetchBestBuy Sample.cfg_both
         (SettledAt 120 (Fulfilled {| Http.status := 503; Http.json := None |}))
         "tv" 1)
  = SettledAt 120 (Fulfilled empty_outcome).
Proof.
  destruct (adapters_contain_their_failures Sample.cfg_both "tv" 1) as [_ H].
  destruct (H (SettledAt 120 (Fulfilled {| Http.status := 503; Http.json := None |})))
    as (_ & _ & Hc).
  destruct (Hc eq_refl) as (_ & _ & _ & Hfail & _).
  apply (Hfail 120%N {| Http.status := 503; Http.json := None |} eq_refl).
  left. reflexivity.
Defined.

(** ** The Best Buy price *)





